(** * fitpy: likelihood fits (least squares and Poisson deviance)

    A shallow embedding of [fitpy/likelihood.py] and the properties of
    its cost functions, fit session, diagnostics, error propagation,
    confidence ellipse and cost-surface scan.

    Numbers are real numbers ([R]): a numpy float is read as the real it
    stands for, so rounding, [inf] and [nan] are outside the model
    (a division by zero and the square root of a negative number are the
    totalised [Rdiv] and [sqrt] of the Standard Library).  A one-dimensional
    [ndarray] is a [list R], a two-dimensional one a list of rows.  A
    Python exception is the [Raise] case of [result]. *)

From Stdlib Require Import Reals Lra Lia ZArith.
From stdpp Require Import base option list gmap.

Open Scope R_scope.

(** ** Exceptions and results *)

Inductive exn : Type :=
| AttributeError      (* [self.fit_result] read before any fit *)
| IndexError          (* index out of range *)
| ValueError          (* operands could not be broadcast together *)
| MaskError           (* mask and data not compatible *)
| LinAlgError         (* matrix is not positive definite *)
| FloatingPointError. (* raised by [__call__] when the minimizer fails *)

Inductive result (A : Type) : Type :=
| Ok (a : A)
| Raise (e : exn).
Arguments Ok {A} a.
Arguments Raise {A} e.

#[global] Instance result_ret : MRet result := fun _ a => Ok a.
#[global] Instance result_bind : MBind result := fun _ _ f m =>
  match m with
  | Ok a => f a
  | Raise e => Raise e
  end.

(** Comparisons of real numbers, as the code's [==] and numpy's domain
    tests decide them. *)
#[global] Instance R_eq_dec : EqDecision R := Req_EM_T.
#[global] Instance Rle_decision (u v : R) : Decision (u <= v) := Rle_dec u v.
#[global] Instance Rlt_decision (u v : R) : Decision (u < v) := Rlt_dec u v.

(** A Python index into a sequence of length [n]: negative indices count
    from the end, anything outside [-n .. n-1] is out of range. *)
Definition py_index (n : nat) (i : Z) : option nat :=
  if decide (0 ≤ i < Z.of_nat n)%Z then Some (Z.to_nat i)
  else if decide (- Z.of_nat n ≤ i < 0)%Z then Some (Z.to_nat (Z.of_nat n + i))
  else None.

(** [a[i]] *)
Definition getitem {A : Type} (a : list A) (i : Z) : result A :=
  match py_index (length a) i ≫= (a !!.) with
  | Some v => Ok v
  | None => Raise IndexError
  end.

(** The array [a] after [a[i] = v] *)
Definition setitem {A : Type} (a : list A) (i : Z) (v : A) : result (list A) :=
  match py_index (length a) i with
  | Some k => Ok (<[k:=v]> a)
  | None => Raise IndexError
  end.

(** A loop that threads an accumulator, stopping at the first exception:
    [for v in l: acc = body(acc, v)]. *)
Fixpoint for_each {M : Type → Type} `{!MBind M, !MRet M} {S A : Type}
    (l : list A) (body : S → A → M S) (acc : S) : M S :=
  match l with
  | [] => mret acc
  | v :: rest => acc' ← body acc v; for_each rest body acc'
  end.

(** ** The part of numpy the module uses *)

Module np.

Abbreviation ndarray := (list R) (only parsing).
Abbreviation matrix := (list (list R)) (only parsing).

(** Element-wise binary operation on one-dimensional arrays, with
    numpy's broadcasting: equal lengths combine point by point, an array
    of length one is stretched, anything else is a [ValueError]. *)
Definition broadcast {A B C : Type} (f : A → B → C) (a : list A)
    (b : list B) : result (list C) :=
  if decide (length a = length b) then Ok (zip_with f a b)
  else match a, b with
       | [a0], _ => Ok (map (f a0) b)
       | _, [b0] => Ok (map (fun ai => f ai b0) a)
       | _, _ => Raise ValueError
       end.

Definition subtract : ndarray → ndarray → result ndarray := broadcast Rminus.
Definition add : ndarray → ndarray → result ndarray := broadcast Rplus.
Definition divide : ndarray → ndarray → result ndarray := broadcast Rdiv.

(** [a ** n] for an integer exponent. *)
Definition power (a : ndarray) (n : nat) : ndarray := map (fun r => r ^ n) a.

(** [np.sum] of a one-dimensional array. *)
Definition sum (a : ndarray) : R := foldr Rplus 0 a.

(** [np.sqrt], [np.cos], [np.sin], element-wise. *)
Definition sqrt (a : ndarray) : ndarray := map R_sqrt.sqrt a.
Definition cos (a : ndarray) : ndarray := map Rtrigo_def.cos a.
Definition sin (a : ndarray) : ndarray := map Rtrigo_def.sin a.

(** [a == v] for a scalar [v], and [np.logical_not]. *)
Definition equal (a : ndarray) (v : R) : list bool :=
  map (fun u => bool_decide (u = v)) a.
Definition logical_not (m : list bool) : list bool := map negb m.

(** [np.zeros_like] *)
Definition zeros_like (a : ndarray) : ndarray := map (fun _ => 0) a.

(** [np.diagonal] of a two-dimensional array: the entries [m[i][i]]
    that exist. *)
Fixpoint diagonal_from (i : nat) (m : matrix) : ndarray :=
  match m with
  | [] => []
  | row :: rest =>
      match row !! i with
      | Some v => v :: diagonal_from (S i) rest
      | None => []
      end
  end.
Definition diagonal (m : matrix) : ndarray := diagonal_from 0 m.

(** [c * m] for a scalar [c] and a two-dimensional array. *)
Definition scale (c : R) (m : matrix) : matrix := map (map (Rmult c)) m.

(** Entry [m[i][j]], read as 0 outside the array (the callers below
    only read inside the shape they have checked). *)
Definition entry (m : matrix) (i j : nat) : R := nth j (nth i m []) 0.

(** The shape [(rows, columns)] of a non-empty rectangular list of
    rows; a ragged or empty list of rows has no two-dimensional shape. *)
Definition shape (m : matrix) : option (nat * nat) :=
  match m with
  | [] => None
  | row :: rest =>
      if forallb (fun r => bool_decide (length r = length row)) rest
      then Some (length m, length row)
      else None
  end.

(** [np.einsum("ik,ij,jk->k", a, c, b)]: for every [k], the sum over
    [i] and [j] of [a[i][k] * c[i][j] * b[j][k]].  The three operands must
    agree on the sizes of [i], [j] and [k] (einsum's stretching of an
    axis of size one is not modelled: [ValueError]). *)
Definition einsum_ik_ij_jk_k (a c b : matrix) : result ndarray :=
  match shape a, shape c, shape b with
  | Some (ni, nk), Some (ni', nj), Some (nj', nk') =>
      if decide (ni = ni' ∧ nj = nj' ∧ nk = nk') then
        Ok (map (fun k =>
              sum (map (fun i =>
                sum (map (fun j => entry a i k * entry c i j * entry b j k)
                         (seq 0 nj)))
                (seq 0 ni)))
            (seq 0 nk))
      else Raise ValueError
  | _, _, _ => Raise ValueError
  end.

(** [np.linspace(start, stop, num)] with the default [endpoint=True]:
    [num] samples [start + i*step] with [step = (stop-start)/(num-1)],
    the last one set to [stop]. *)
Definition linspace (start stop : R) (num : nat) : ndarray :=
  let div := (num - 1)%nat in
  let delta := stop - start in
  let step := delta / INR div in
  let y := map (fun i => if decide (0 < div)%nat
                         then INR i * step + start
                         else INR i * delta + start) (seq 0 num) in
  if decide (1 < num)%nat then <[(num - 1)%nat := stop]> y else y.

(** [np.column_stack([u, v])] of two one-dimensional arrays: the rows
    [[u[k], v[k]]]. *)
Definition column_stack (u v : ndarray) : result matrix :=
  if decide (length u = length v) then Ok (zip_with (fun a b => [a; b]) u v)
  else Raise ValueError.

(** [m.T] of an array with [cols] columns. *)
Definition transpose (cols : nat) (m : matrix) : matrix :=
  map (fun j => map (fun row => nth j row 0) m) (seq 0 cols).

(** [a @ b], where [a] has rows of length [n] and [b] is [n] by [cols]. *)
Definition matmul (n cols : nat) (a b : matrix) : matrix :=
  map (fun row =>
         map (fun j => sum (map (fun l => nth l row 0 * entry b l j) (seq 0 n)))
             (seq 0 cols)) a.

(** [m + v]: the one-dimensional [v] is added to every row. *)
Definition add_rows (cols : nat) (m : matrix) (v : ndarray) : result matrix :=
  if decide (length v = cols) then Ok (map (fun row => zip_with Rplus row v) m)
  else match v with
       | [v0] => Ok (map (map (fun a => a + v0)) m)
       | _ => Raise ValueError
       end.

(** [np.linalg.cholesky] of a 2 by 2 matrix, the only size the module
    passes: the lower-triangular factor [L] with [L @ L.T = a], read from
    the lower triangle of [a]; [LinAlgError] when [a] is not positive
    definite. *)
Definition cholesky (a : matrix) : result matrix :=
  match a with
  | [[a00; _]; [a10; a11]] =>
      if decide (0 < a00) then
        let l00 := R_sqrt.sqrt a00 in
        let l10 := a10 / l00 in
        if decide (0 < a11 - l10 * l10) then
          Ok [[l00; 0]; [l10; R_sqrt.sqrt (a11 - l10 * l10)]]
        else Raise LinAlgError
      else Raise LinAlgError
  | _ => Raise LinAlgError
  end.

(** [np.reshape(l, (rows, cols))] of a flat list. *)
Definition reshape {A : Type} (l : list A) (rows cols : nat) :
    result (list (list A)) :=
  if decide (length l = (rows * cols)%nat)
  then Ok (map (fun r => take cols (drop (r * cols) l)) (seq 0 rows))
  else Raise ValueError.

(** [np.tensordot(u, v, axes=0)] of two one-dimensional arrays: the
    outer product, with the entries [u[i] * v[j]]. *)
Definition tensordot0 (u v : ndarray) : matrix :=
  map (fun a => map (fun b => a * b) v) u.

(** Element-wise binary operation on two-dimensional arrays, with
    numpy's broadcasting on both axes. *)
Fixpoint collect {A : Type} (l : list (result A)) : result (list A) :=
  match l with
  | [] => Ok []
  | r :: rest =>
      match r, collect rest with
      | Ok a, Ok rest' => Ok (a :: rest')
      | Raise e, _ => Raise e
      | _, Raise e => Raise e
      end
  end.

Definition broadcast2 (f : R → R → R) (a b : matrix) : result matrix :=
  match broadcast (fun ra rb => broadcast f ra rb) a b with
  | Ok rows => collect rows
  | Raise e => Raise e
  end.

End np.

(** The value of a cost function: a number, or numpy's constant
    [numpy.ma.masked], which is what the sum of a masked array whose
    elements are all masked returns. *)
Inductive scalar : Type :=
| Num (r : R)
| Masked.

(** [a + b] on such values: [masked] absorbs. *)
Definition scalar_add (a b : scalar) : scalar :=
  match a, b with
  | Num u, Num v => Num (u + v)
  | _, _ => Masked
  end.

(** ** numpy.ma: masked arrays *)

Module ma.

(** A masked array: [None] is a masked element. *)
Abbreviation MaskedArray := (list (option R)) (only parsing).

(** [np.ma.array(data, mask=mask)]: a mask of the data's length is
    applied point by point, a mask of length one is stretched, any other
    mask is a [MaskError]. *)
Definition array (data : np.ndarray) (mask : list bool) : result MaskedArray :=
  let put d (m : bool) := if m then None else Some d in
  if decide (length mask = length data) then Ok (zip_with put data mask)
  else match mask with
       | [m0] => Ok (map (fun d => put d m0) data)
       | _ => Raise MaskError
       end.

(** A binary operation: the result is masked where an operand is. *)
Definition lift2 (f : R → R → R) (u v : option R) : option R :=
  match u, v with
  | Some a, Some b => Some (f a b)
  | _, _ => None
  end.

Definition subtract : MaskedArray → MaskedArray → result MaskedArray :=
  np.broadcast (lift2 Rminus).
Definition multiply : MaskedArray → MaskedArray → result MaskedArray :=
  np.broadcast (lift2 Rmult).

(** [a / b]: also masked where the divisor is zero. *)
Definition divide : MaskedArray → MaskedArray → result MaskedArray :=
  np.broadcast (fun u v =>
    match u, v with
    | Some a, Some b => if decide (b = 0) then None else Some (a / b)
    | _, _ => None
    end).

(** [c * a] for a scalar [c]. *)
Definition scale (c : R) (a : MaskedArray) : MaskedArray :=
  map (fmap (Rmult c)) a.

(** [np.log(a)]: also masked where the argument is not positive. *)
Definition log (a : MaskedArray) : MaskedArray :=
  map (fun u =>
         match u with
         | Some v => if decide (v <= 0) then None else Some (ln v)
         | None => None
         end) a.

(** [a.sum()]: the sum of the elements that are not masked; the
    constant [masked] when every element is masked. *)
Definition sum (a : MaskedArray) : scalar :=
  if forallb (fun u => bool_decide (u = None)) a then Masked
  else Num (np.sum (map (default 0) a)).

End ma.

(** The spec's sum over data points [0 .. n-1]. *)
Fixpoint big_sum (n : nat) (f : nat → R) : R :=
  match n with
  | O => 0
  | S k => big_sum k f + f k
  end.

(** A model: [model(x, par)], vectorised over [x]. *)
Definition Model : Type := np.ndarray → np.ndarray → np.ndarray.

(** ** scipy.optimize.OptimizeResult

    The fields of the minimizer's result that the module reads.  The
    estimator array [x] is of type [A]: an array value where only its
    contents matter, a reference into the store where the code mutates
    arrays ([vcost_function]). *)

Module OptimizeResult.

Record t (A : Type) : Type := mk {
  x : A;
  fun_ : R;
  success : bool;
  status : Z;
  hess_inv : np.matrix;
}.
Arguments mk {A}.
Arguments x {A}.
Arguments fun_ {A}.
Arguments success {A}.
Arguments status {A}.
Arguments hess_inv {A}.

End OptimizeResult.

(** [scipy.optimize.minimize(fun, x0=seed)], the external minimizer. *)
Definition Minimizer : Type :=
  (np.ndarray → result scalar) → np.ndarray →
  result (OptimizeResult.t np.ndarray).

(** ** Arrays as mutable objects

    [vcost_function] writes into an array, so there the arrays live in a
    store and a variable holds a reference: two variables may name one
    array, and a write through one is seen through the other. *)

Abbreviation loc := nat (only parsing).
Abbreviation store := (gmap nat (list R)) (only parsing).

(** A computation over the store; the store survives an exception. *)
Definition M (A : Type) : Type := store → result A * store.

#[global] Instance M_ret : MRet M := fun _ a σ => (Ok a, σ).
#[global] Instance M_bind : MBind M := fun _ _ f m σ =>
  match m σ with
  | (Ok a, σ') => f a σ'
  | (Raise e, σ') => (Raise e, σ')
  end.

Definition lift {A : Type} (r : result A) : M A := fun σ => (r, σ).

(** Reading the array behind a reference.  A reference held by a Python
    variable always names an array of the store; the [None] case is there
    for totality only. *)
Definition deref (l : loc) : M np.ndarray := fun σ =>
  match σ !! l with
  | Some a => (Ok a, σ)
  | None => (Raise AttributeError, σ)
  end.

(** A new array in the store, and the overwriting of an array. *)
Definition alloc (a : np.ndarray) : M loc := fun σ =>
  let l := fresh (dom σ) in (Ok l, <[l:=a]> σ).
Definition assign (l : loc) (a : np.ndarray) : M () := fun σ =>
  (Ok (), <[l:=a]> σ).

(** [a.copy()]: a new array with the same contents. *)
Definition ndarray_copy (l : loc) : M loc :=
  a ← deref l; alloc a.

(** [a[i] = v], in place. *)
Definition ndarray_setitem (l : loc) (i : Z) (v : R) : M () :=
  a ← deref l;
  a' ← lift (setitem a i v);
  assign l a'.

(** ** get_confidence_ellipse (the module-level function) *)

Definition get_confidence_ellipse (center : np.ndarray) (cova : np.matrix)
    (nsigma : R) (npoints : nat) : result np.matrix :=
  cholesky_l ← np.cholesky cova;
  let t := np.linspace 0 (2 * PI) npoints in
  circle ← np.column_stack (np.cos t) (np.sin t);
  ellipse ← np.add_rows 2
    (np.matmul 2 2 (np.scale nsigma circle) (np.transpose 2 cholesky_l)) center;
  Ok (np.transpose 2 ellipse).

(** ** class LikelihoodFit *)

Module LikelihoodFit.

(** The object: the data and the model given to [__init__], the
    abstract method [cost_function] as the subclass binds it, and the
    attribute [fit_result], absent until [__call__] sets it. *)
Record t (A : Type) : Type := mk {
  x : np.ndarray;
  y : np.ndarray;
  model : Model;
  cost_function : np.ndarray → result scalar;
  fit_result : option (OptimizeResult.t A);
}.
Arguments mk {A}.
Arguments x {A}.
Arguments y {A}.
Arguments model {A}.
Arguments cost_function {A}.
Arguments fit_result {A}.

(** [self.fit_result = r] *)
Definition set_fit_result {A B : Type} (self : t A)
    (r : OptimizeResult.t B) : t B :=
  mk self.(x) self.(y) self.(model) self.(cost_function) (Some r).

(** [self.fit_result] *)
Definition get_minimize_result {A : Type} (self : t A) :
    result (OptimizeResult.t A) :=
  match self.(fit_result) with
  | Some r => Ok r
  | None => Raise AttributeError
  end.

(** [__call__(self, seed)]: the object after the call, and what the
    call returns or raises.  (The [print] of the failed result is not
    modelled.) *)
Definition __call__ (minimize : Minimizer) (self : t np.ndarray)
    (seed : np.ndarray) : t np.ndarray * result Z :=
  match minimize self.(cost_function) seed with
  | Raise e => (self, Raise e)
  | Ok r =>
      let self := set_fit_result self r in
      if negb r.(OptimizeResult.success)
      then (self, Raise FloatingPointError)
      else (self, Ok r.(OptimizeResult.status))
  end.

Definition get_estimators {A : Type} (self : t A) : result A :=
  r ← get_minimize_result self; Ok r.(OptimizeResult.x).

Definition get_covariance_matrix {A : Type} (self : t A) : result np.matrix :=
  r ← get_minimize_result self;
  let covariance := np.scale 2 r.(OptimizeResult.hess_inv) in
  Ok covariance.

Definition get_errors {A : Type} (self : t A) : result np.ndarray :=
  covariance ← get_covariance_matrix self;
  let errors := np.sqrt (np.diagonal covariance) in
  Ok errors.

Definition get_deviance {A : Type} (self : t A) : result R :=
  r ← get_minimize_result self; Ok r.(OptimizeResult.fun_).

Definition get_ndof (self : t np.ndarray) : result Z :=
  estimators ← get_estimators self;
  let ndof := (Z.of_nat (length self.(x)) - Z.of_nat (length estimators))%Z in
  Ok ndof.

Definition get_yfit (self : t np.ndarray) (xs : np.ndarray) : result np.ndarray :=
  estimators ← get_estimators self;
  Ok (self.(model) xs estimators).

(** [get_confidence_ellipse(self, xindex, yindex, nsigma, npoints)] *)
Definition get_confidence_ellipse (self : t np.ndarray) (xindex yindex : Z)
    (nsigma : R) (npoints : nat) : result np.matrix :=
  estimators ← get_estimators self;
  ex ← getitem estimators xindex;
  ey ← getitem estimators yindex;
  let estimator_pair := [ex; ey] in
  cova ← get_covariance_matrix self;
  rx ← getitem cova xindex;
  ry ← getitem cova yindex;
  cxx ← getitem rx xindex;
  cxy ← getitem rx yindex;
  cyx ← getitem ry xindex;
  cyy ← getitem ry yindex;
  let cova_pair := [[cxx; cxy]; [cyx; cyy]] in
  get_confidence_ellipse estimator_pair cova_pair nsigma npoints.

(** Numerical derivative of the model with respect to the parameters,
    evaluated at the estimators: one row per parameter, one column per
    value of [xs]. *)
Definition get_gradient (self : t np.ndarray) (xs : np.ndarray) :
    result np.matrix :=
  estimators ← get_estimators self;
  errors ← get_errors self;
  (* Setting finite difference steps to some fraction of the errors *)
  let delta_fraction := 0.01 in
  let steps := map (fun e => e * delta_fraction) errors in
  let ndimensions := length steps in
  for_each (seq 0 ndimensions) (fun gradient i =>
    step1 ← getitem steps (Z.of_nat i);
    (* Change an element of the parameter vector by step *)
    delta_par1 ← setitem (np.zeros_like steps) (Z.of_nat i) step1;
    par_down ← np.subtract estimators delta_par1;
    par_up ← np.add estimators delta_par1;
    (* Calculate an element of the gradient vector *)
    let model_up := self.(model) xs par_up in
    let model_down := self.(model) xs par_down in
    d ← np.subtract model_up model_down;
    let gradient1 := map (fun v => v / (2 * step1)) d in
    Ok (gradient ++ [gradient1])) [].

Definition get_yfit_error (self : t np.ndarray) (xs : np.ndarray) :
    result np.ndarray :=
  gradient ← get_gradient self xs;
  (* Propagate parameter errors *)
  covariance ← get_covariance_matrix self;
  var_yfit ← np.einsum_ik_ij_jk_k gradient covariance gradient;
  let sigma_yfit := np.sqrt var_yfit in
  Ok sigma_yfit.

(** The body of the inner loop of [vcost_function], for the candidate
    values [x] and [y].  [self.cost_function(par)] reads the array behind
    [par] and leaves the store as it is. *)
Definition vcost_cell (self : t loc) (parx_index pary_index : Z) (y : R)
    (vcost : list scalar) (x : R) : M (list scalar) :=
  estimators ← lift (get_estimators self);
  par ← ndarray_copy estimators;
  _ ← ndarray_setitem par parx_index x;
  _ ← ndarray_setitem par pary_index y;
  a ← deref par;
  cost1 ← lift (self.(cost_function) a);
  mret (vcost ++ [cost1]).

(** Vectorized version of the cost function useful for plotting. *)
Definition vcost_function (self : t loc) (parx_index pary_index : Z)
    (parx pary : list R) : M (list (list scalar)) :=
  vcost ← for_each pary (fun vcost y =>
    for_each parx (vcost_cell self parx_index pary_index y) vcost) [];
  lift (np.reshape vcost (length pary) (length parx)).

Definition get_correlation_matrix (self : t np.ndarray) : result np.matrix :=
  covariance ← get_covariance_matrix self;
  errors ← get_errors self;
  correlation ← np.broadcast2 Rdiv covariance (np.tensordot0 errors errors);
  Ok correlation.

End LikelihoodFit.

(** ** class LeastSquares *)

Module LeastSquares.

(** [cost_function(self, par)] with [self.x], [self.y], [self.ysigma]
    and [self.model] given. *)
Definition cost_function (x y ysigma : np.ndarray) (model : Model)
    (par : np.ndarray) : result scalar :=
  let mu := model x par in
  d ← np.subtract y mu;
  residuals ← np.divide d ysigma;
  let cost := np.sum (np.power residuals 2) in
  Ok (Num cost).

(** [LeastSquares(x, y, ysigma, model)] *)
Definition __init__ (x y ysigma : np.ndarray) (model : Model) :
    LikelihoodFit.t np.ndarray :=
  LikelihoodFit.mk x y model (cost_function x y ysigma model) None.

End LeastSquares.

(** ** class Poisson *)

Module Poisson.

(** [cost_function(self, par)] with [self.x], [self.y] and
    [self.model] given. *)
Definition cost_function (x y : np.ndarray) (model : Model)
    (par : np.ndarray) : result scalar :=
  let mu := model x par in
  (* Select data points y!=0 *)
  let zero_mask := np.equal y 0 in
  y1 ← ma.array y zero_mask;
  mu1 ← ma.array mu zero_mask;
  d ← ma.subtract mu1 y1;
  q ← ma.divide mu1 y1;
  p ← ma.multiply (ma.scale 2 y1) (ma.log q);
  cost_array1 ← ma.subtract (ma.scale 2 d) p;
  let cost1 := ma.sum cost_array1 in
  (* Select data points y=0 *)
  mu2 ← ma.array mu (np.logical_not zero_mask);
  let cost_array2 := ma.scale 2 mu2 in
  let cost2 := ma.sum cost_array2 in
  let cost := scalar_add cost1 cost2 in
  Ok cost.

(** [Poisson(x, y, model)] *)
Definition __init__ (x y : np.ndarray) (model : Model) :
    LikelihoodFit.t np.ndarray :=
  LikelihoodFit.mk x y model (cost_function x y model) None.

(** The spec's piecewise term of one data point. *)
Definition deviance_term (y mu : R) : R :=
  if decide (y = 0) then 2 * mu
  else 2 * (mu - y) - 2 * y * ln (mu / y).

End Poisson.

(** The elements of [cost_array1] and [cost_array2] of
    [Poisson.cost_function] at one data point with count [y] and model
    value [mu]. *)
Definition cost_array1_at (y mu : R) : option R :=
  if decide (y = 0) then None
  else if decide (mu / y <= 0) then None
  else Some (2 * (mu - y) - 2 * y * ln (mu / y)).

Definition cost_array2_at (y mu : R) : option R :=
  if decide (y = 0) then Some (2 * mu) else None.

(** What a data point with count [y] and model value [mu] adds to the
    sum of [Poisson.cost_function]: nothing where the logarithm's argument
    is not positive, since that element is masked. *)
Definition computed_term (y mu : R) : R :=
  if decide (y = 0) then 2 * mu
  else if decide (mu / y <= 0) then 0
  else 2 * (mu - y) - 2 * y * ln (mu / y).

(** ** Linear algebra of the spec's formulas *)

(** Column [k] of a matrix: the gradient at one x-point. *)
Definition column (k : nat) (m : np.matrix) : np.ndarray :=
  map (fun row => nth k row 0) m.

Definition dot (u v : np.ndarray) : R := np.sum (zip_with Rmult u v).

Definition matvec (c : np.matrix) (v : np.ndarray) : np.ndarray :=
  map (fun row => dot row v) c.

(** [v^T * c * v] *)
Definition quadratic_form (v : np.ndarray) (c : np.matrix) : R :=
  dot v (matvec c v).

(** The diagonal part [sum_i c[i][i] * v[i]^2] of the quadratic form and
    its cross terms [sum_i sum_(j <> i) v[i] * c[i][j] * v[j]]. *)
Definition diagonal_terms (n : nat) (v : np.ndarray) (c : np.matrix) : R :=
  big_sum n (fun i => np.entry c i i * (nth i v 0) ^ 2).

Definition cross_terms (n : nat) (v : np.ndarray) (c : np.matrix) : R :=
  big_sum n (fun i => big_sum n (fun j =>
    if decide (j = i) then 0 else nth i v 0 * np.entry c i j * nth j v 0)).

(** The finite-difference step of parameter [i] in [get_gradient], and
    the estimator vector with parameter [i] alone moved by [d]. *)
Definition gradient_step (hess_inv : np.matrix) (i : nat) : R :=
  sqrt (2 * np.entry hess_inv i i) * 0.01.

Definition shifted (est : np.ndarray) (i : nat) (d : R) : np.ndarray :=
  <[i := nth i est 0 + d]> est.

(** ** The cost-surface scan on array values

    What [vcost_function] computes, told without the store: every cell
    starts from the estimator vector [est], overrides the two indices and
    evaluates the cost. *)

Definition cell_value (cost : np.ndarray → result scalar) (est : np.ndarray)
    (parx_index pary_index : Z) (x y : R) : result scalar :=
  par ← setitem est parx_index x;
  par ← setitem par pary_index y;
  cost par.

Definition cell_append (cost : np.ndarray → result scalar) (est : np.ndarray)
    (parx_index pary_index : Z) (y : R) (vcost : list scalar) (x : R) :
    result (list scalar) :=
  cost1 ← cell_value cost est parx_index pary_index x y;
  Ok (vcost ++ [cost1]).

Definition vcost_values (cost : np.ndarray → result scalar) (est : np.ndarray)
    (parx_index pary_index : Z) (parx pary : list R) :
    result (list (list scalar)) :=
  vcost ← for_each pary (fun vcost y =>
    for_each parx (cell_append cost est parx_index pary_index y) vcost) [];
  np.reshape vcost (length pary) (length parx).

(** [get_estimators()] read through the store: the contents of the
    array that [self.fit_result.x] names. *)
Definition estimators_in (self : LikelihoodFit.t loc) (σ : store) :
    result np.ndarray :=
  match LikelihoodFit.get_estimators self with
  | Ok l => (deref l σ).1
  | Raise e => Raise e
  end.

(** ** examples/poisson/poisson.py

    The model and the data of the example script.  [norm.pdf(x, loc,
    scale)] of scipy is the standard normal density at [(x - loc)/scale],
    divided by [scale]; for a scale that is not positive scipy returns
    [nan], which is outside the model. *)

Module poisson_example.






Definition seed : np.ndarray := [1; 0; 1].

End poisson_example.

(** ** Models and data used in the examples *)

(** The model [par[0]*x + par[1]] of the end-to-end example. *)
Definition line_model : Model := fun x par =>
  map (fun xi => nth 0 par 0 * xi + nth 1 par 0) x.

(** A minimizer that gives up at once: it reports failure and hands
    back the seed. *)
Definition failing_minimizer : Minimizer := fun _ seed =>
  Ok (OptimizeResult.mk seed 7 false 2%Z [[1; 0]; [0; 1]]).

(** A least-squares session after a successful fit to [[2; 1]]. *)
Definition fitted_session : LikelihoodFit.t np.ndarray :=
  LikelihoodFit.set_fit_result
    (LeastSquares.__init__ [0; 1; 2] [1; 3; 5] [1; 1; 1] line_model)
    (OptimizeResult.mk [2; 1] 0 true 0%Z [[1; -1]; [-1; 2]]).

(** The single-parameter model [par[0]*x]. *)
Definition proportional_model : Model := fun x par =>
  map (fun xi => nth 0 par 0 * xi) x.

(** A session with the single-parameter model after a fit to [[3]]. *)
Definition proportional_session : LikelihoodFit.t np.ndarray :=
  LikelihoodFit.set_fit_result
    (LeastSquares.__init__ [1; 2] [3; 6] [1; 1] proportional_model)
    (OptimizeResult.mk [3] 0 true 0%Z [[2]]).

(** A session whose estimator array [[2; 1]] is the array 0 of the
    store. *)
Definition scan_session : LikelihoodFit.t loc :=
  LikelihoodFit.set_fit_result
    (LeastSquares.__init__ [0; 1; 2] [1; 3; 5] [1; 1; 1] line_model)
    (OptimizeResult.mk 0%nat 0 true 0%Z [[1; -1]; [-1; 2]]).

Definition scan_store : store := {[ 0%nat := [2; 1] ]}.

(** A minimizer that reports success at [[2; 1]]. *)
Definition succeeding_minimizer : Minimizer := fun _ _ =>
  Ok (OptimizeResult.mk [2; 1] 0 true 0%Z [[1; -1]; [-1; 2]]).

(** A least-squares session before any fit. *)
Definition fresh_session : LikelihoodFit.t np.ndarray :=
  LeastSquares.__init__ [0; 1; 2] [1; 3; 5] [1; 1; 1] line_model.

(** * Properties *)

(** ** Sums over lists and over index ranges *)

Lemma big_sum_ext (n : nat) (f g : nat → R) :
  (∀ i, (i < n)%nat → f i = g i) → big_sum n f = big_sum n g.
Proof.
  induction n as [|n IH]; intros H; cbn [big_sum]; [reflexivity|].
  rewrite IH, (H n) by (intros; auto with lia). reflexivity.
Qed.

Lemma foldr_Rplus_snoc (a : list R) (v : R) :
  foldr Rplus 0 (a ++ [v]) = foldr Rplus 0 a + v.
Proof.
  induction a as [|w a IH]; cbn [foldr app]; [lra|]. rewrite IH. lra.
Qed.

Lemma np_sum_big_sum (a : np.ndarray) :
  np.sum a = big_sum (length a) (fun i => nth i a 0).
Proof.
  induction a as [|v a IH] using rev_ind; [reflexivity|].
  rewrite length_app, Nat.add_1_r. cbn [big_sum].
  rewrite app_nth2, Nat.sub_diag by lia. cbn [nth].
  unfold np.sum in *. rewrite foldr_Rplus_snoc, IH. f_equal.
  apply big_sum_ext. intros i Hi. rewrite app_nth1 by lia. reflexivity.
Qed.

Lemma np_sum_map_seq (n : nat) (f : nat → R) :
  np.sum (map f (seq 0 n)) = big_sum n f.
Proof.
  induction n as [|n IH]; [reflexivity|].
  rewrite seq_S, map_app. cbn [map big_sum Nat.add].
  unfold np.sum in *. rewrite foldr_Rplus_snoc, IH. reflexivity.
Qed.

(** ** Broadcasting of arrays of equal length *)

Lemma broadcast_same_length {A B C : Type} (f : A → B → C) (a : list A)
    (b : list B) :
  length a = length b → np.broadcast f a b = Ok (zip_with f a b).
Proof. intros H. unfold np.broadcast. rewrite decide_True by done. done. Qed.

Lemma nth_zip_with_R (f : R → R → R) (a b : list R) (i : nat) :
  length a = length b → (i < length a)%nat →
  nth i (zip_with f a b) 0 = f (nth i a 0) (nth i b 0).
Proof.
  revert b i. induction a as [|u a IH]; intros [|v b] i Hl Hi;
    simpl in *; try lia.
  destruct i as [|i]; [reflexivity|]. apply IH; lia.
Qed.

(** ** LeastSquares *)

Lemma LeastSquares_cost_equal_lengths
    (x y ysigma : np.ndarray) (model : Model) (par : np.ndarray) :
  length (model x par) = length y →
  length ysigma = length y →
  LeastSquares.cost_function x y ysigma model par =
  Ok (Num (np.sum (np.power
             (zip_with Rdiv (zip_with Rminus y (model x par)) ysigma) 2))).
Proof.
  intros Hmu Hsig. unfold LeastSquares.cost_function, np.subtract, np.divide.
  rewrite broadcast_same_length by done. cbn [mbind result_bind].
  rewrite broadcast_same_length by (rewrite length_zip_with; lia).
  reflexivity.
Qed.

(** C2. For data, sigmas and model output of one length, the
    least-squares cost of any parameter vector is the sum over the data
    points of [((y_i - model(x,par)_i) / ysigma_i)^2]. *)
Theorem LeastSquares_cost_is_sum_of_squared_residuals
    (x y ysigma : np.ndarray) (model : Model) (par : np.ndarray) :
  length (model x par) = length y →
  length ysigma = length y →
  LeastSquares.cost_function x y ysigma model par =
  Ok (Num (big_sum (length y) (fun i =>
             ((nth i y 0 - nth i (model x par) 0) / nth i ysigma 0) ^ 2))).
Proof.
  intros Hmu Hsig. rewrite LeastSquares_cost_equal_lengths by done.
  do 2 f_equal.
  rewrite np_sum_big_sum. unfold np.power.
  rewrite length_map, !length_zip_with, Hmu, Hsig, !Nat.min_id.
  apply big_sum_ext. intros i Hi.
  rewrite (nth_indep _ 0 (0 ^ 2)) by
    (rewrite length_map, !length_zip_with; lia).
  rewrite (map_nth (fun r => r ^ 2)).
  rewrite !nth_zip_with_R; rewrite ?length_zip_with; try lia. reflexivity.
Qed.

Lemma LeastSquares_cost_is_sum_of_squared_residuals_witness :
  LeastSquares.cost_function [0; 1; 2] [1; 3; 6] [1; 1; 2] line_model [2; 1] =
  Ok (Num (big_sum 3 (fun i =>
             ((nth i [1; 3; 6] 0 - nth i (line_model [0; 1; 2] [2; 1]) 0)
              / nth i [1; 1; 2] 0) ^ 2))).
Proof.
  apply (LeastSquares_cost_is_sum_of_squared_residuals
           [0; 1; 2] [1; 3; 6] [1; 1; 2] line_model [2; 1]); reflexivity.
Defined.

(** The claim C8 as the spec words it fails: with the single sigma [-1]
    the cost is the number 4, no exception. *)
Lemma LeastSquares_negative_sigma_counterexample :
  (∃ s, s ∈ [-1] ∧ s <= 0) ∧
  LeastSquares.cost_function [0] [3] [-1] line_model [2; 1] = Ok (Num 4).
Proof.
  split.
  - exists (-1). split; [apply list_elem_of_singleton; reflexivity | lra].
  - rewrite LeastSquares_cost_equal_lengths by reflexivity.
    do 2 f_equal. unfold line_model, np.sum, np.power. simpl. field.
Qed.

(** C8, amended. [cost_function] does not inspect [ysigma]: on data,
    sigmas and model output of one length it returns a number whatever the
    signs of the sigmas, and that number is the cost for the absolute
    values of the sigmas. *)
Theorem LeastSquares_cost_has_no_sigma_check
    (x y ysigma : np.ndarray) (model : Model) (par : np.ndarray) :
  length (model x par) = length y →
  length ysigma = length y →
  (∃ c, LeastSquares.cost_function x y ysigma model par = Ok (Num c)) ∧
  LeastSquares.cost_function x y ysigma model par =
  LeastSquares.cost_function x y (map Rabs ysigma) model par.
Proof.
  intros Hmu Hsig. split.
  - rewrite LeastSquares_cost_equal_lengths by done. eauto.
  - rewrite !LeastSquares_cost_equal_lengths by (rewrite ?length_map; done).
    do 3 f_equal. generalize (zip_with Rminus y (model x par)) as d.
    clear. intros d. revert d.
    induction ysigma as [|s ysigma IH]; intros [|u d]; try reflexivity.
    cbn [map zip_with np.power]. f_equal; [|apply IH].
    unfold Rabs. destruct (Rcase_abs s); [|reflexivity].
    unfold Rdiv. rewrite Rinv_opp. ring.
Qed.

Lemma LeastSquares_cost_has_no_sigma_check_witness :
  (∃ c, LeastSquares.cost_function [0] [3] [-1] line_model [2; 1] = Ok (Num c)) ∧
  LeastSquares.cost_function [0] [3] [-1] line_model [2; 1] =
  LeastSquares.cost_function [0] [3] (map Rabs [-1]) line_model [2; 1].
Proof.
  apply (LeastSquares_cost_has_no_sigma_check [0] [3] [-1] line_model [2; 1]);
    reflexivity.
Defined.

(** ** The fit session *)

(** C3. With a fit result stored, [get_covariance_matrix] returns a
    matrix of the shape of the stored inverse curvature whose every entry
    is twice the entry of [hess_inv] at the same place. *)
Theorem get_covariance_matrix_doubles_hess_inv {A : Type}
    (self : LikelihoodFit.t A) (r : OptimizeResult.t A) :
  LikelihoodFit.get_minimize_result self = Ok r →
  ∃ covariance,
    LikelihoodFit.get_covariance_matrix self = Ok covariance ∧
    length covariance = length r.(OptimizeResult.hess_inv) ∧
    ∀ i j : nat,
      covariance !! i ≫= (.!! j) =
      Rmult 2 <$> (r.(OptimizeResult.hess_inv) !! i ≫= (.!! j)).
Proof.
  intros Hr. unfold LikelihoodFit.get_covariance_matrix. rewrite Hr.
  cbn [mbind result_bind]. eexists. split; [reflexivity|].
  unfold np.scale. split; [apply length_map|].
  intros i j.
  change (map (map (Rmult 2)) (OptimizeResult.hess_inv r))
    with (fmap (M := list) (fmap (M := list) (Rmult 2))
            (OptimizeResult.hess_inv r)).
  rewrite list_lookup_fmap.
  destruct (OptimizeResult.hess_inv r !! i) as [row|]; [|reflexivity].
  cbn. apply list_lookup_fmap.
Qed.

Lemma get_covariance_matrix_doubles_hess_inv_witness :
  ∃ covariance,
    LikelihoodFit.get_covariance_matrix fitted_session = Ok covariance ∧
    length covariance = 2%nat ∧
    ∀ i j : nat,
      covariance !! i ≫= (.!! j) =
      Rmult 2 <$> ([[1; -1]; [-1; 2]] !! i ≫= (.!! j)).
Proof.
  apply (get_covariance_matrix_doubles_hess_inv fitted_session
           (OptimizeResult.mk [2; 1] 0 true 0%Z [[1; -1]; [-1; 2]])).
  reflexivity.
Defined.

(** The claim C4 as the spec words it fails: a failed call on a fitted
    session raises, but the stored fit result is no longer the one of the
    earlier fit, and [get_estimators] returns the failed minimizer's
    vector. *)
Lemma failed_fit_overwrites_fit_result_counterexample :
  LikelihoodFit.get_estimators fitted_session = Ok [2; 1] ∧
  (LikelihoodFit.__call__ failing_minimizer fitted_session [5; 5]).2 =
    Raise FloatingPointError ∧
  LikelihoodFit.fit_result
    (LikelihoodFit.__call__ failing_minimizer fitted_session [5; 5]).1 ≠
    LikelihoodFit.fit_result fitted_session ∧
  LikelihoodFit.get_estimators
    (LikelihoodFit.__call__ failing_minimizer fitted_session [5; 5]).1 =
    Ok [5; 5].
Proof.
  repeat split. cbn. intros H.
  assert (Hs : OptimizeResult.success
                 (OptimizeResult.mk [5; 5] 7 false 2%Z [[1; 0]; [0; 1]]) =
               OptimizeResult.success
                 (OptimizeResult.mk [2; 1] 0 true 0%Z [[1; -1]; [-1; 2]]))
    by congruence.
  discriminate Hs.
Qed.

(** C4, amended. When the minimizer reports failure the call raises
    [FloatingPointError], and the minimizer's result has been stored by
    then: it is the session's fit result after the call, and
    [get_estimators] returns its vector.  The data, the model and the cost
    function of the session are as before. *)
Theorem failed_fit_raises_and_stores_result (minimize : Minimizer)
    (self : LikelihoodFit.t np.ndarray) (seed : np.ndarray)
    (r : OptimizeResult.t np.ndarray) :
  minimize self.(LikelihoodFit.cost_function) seed = Ok r →
  r.(OptimizeResult.success) = false →
  (LikelihoodFit.__call__ minimize self seed).2 = Raise FloatingPointError ∧
  LikelihoodFit.fit_result (LikelihoodFit.__call__ minimize self seed).1 =
    Some r ∧
  LikelihoodFit.get_estimators (LikelihoodFit.__call__ minimize self seed).1 =
    Ok r.(OptimizeResult.x) ∧
  LikelihoodFit.cost_function (LikelihoodFit.__call__ minimize self seed).1 =
    LikelihoodFit.cost_function self.
Proof.
  intros Hmin Hfail. unfold LikelihoodFit.__call__. rewrite Hmin, Hfail.
  cbn. auto.
Qed.

Lemma failed_fit_raises_and_stores_result_witness :
  (LikelihoodFit.__call__ failing_minimizer fitted_session [5; 5]).2 =
    Raise FloatingPointError ∧
  LikelihoodFit.fit_result
    (LikelihoodFit.__call__ failing_minimizer fitted_session [5; 5]).1 =
    Some (OptimizeResult.mk [5; 5] 7 false 2%Z [[1; 0]; [0; 1]]) ∧
  LikelihoodFit.get_estimators
    (LikelihoodFit.__call__ failing_minimizer fitted_session [5; 5]).1 =
    Ok [5; 5] ∧
  LikelihoodFit.cost_function
    (LikelihoodFit.__call__ failing_minimizer fitted_session [5; 5]).1 =
    LikelihoodFit.cost_function fitted_session.
Proof.
  apply (failed_fit_raises_and_stores_result failing_minimizer fitted_session
           [5; 5] (OptimizeResult.mk [5; 5] 7 false 2%Z [[1; 0]; [0; 1]]));
    reflexivity.
Defined.

(** ** Poisson *)

Ltac solve_length :=
  repeat (rewrite length_map || rewrite length_zip_with); lia.

Lemma ma_array_same_length (data : np.ndarray) (mask : list bool) :
  length mask = length data →
  ma.array data mask =
  Ok (zip_with (fun d (m : bool) => if m then None else Some d) data mask).
Proof. intros H. unfold ma.array. rewrite decide_True by done. done. Qed.

(** On data and model output of one length, the cost is the sum of the
    two masked arrays whose elements are [cost_array1_at] and
    [cost_array2_at]. *)
Lemma Poisson_cost_pointwise (x y : np.ndarray) (model : Model)
    (par : np.ndarray) :
  length (model x par) = length y →
  Poisson.cost_function x y model par =
  Ok (scalar_add (ma.sum (zip_with cost_array1_at y (model x par)))
                 (ma.sum (zip_with cost_array2_at y (model x par)))).
Proof.
  intros Hlen. unfold Poisson.cost_function.
  generalize dependent (model x par). intros mu Hlen.
  unfold ma.subtract, ma.divide, ma.multiply, np.logical_not, np.equal,
    ma.scale, ma.log.
  rewrite !ma_array_same_length by (rewrite ?length_map; lia).
  cbn [mbind result_bind].
  repeat (rewrite broadcast_same_length by solve_length;
          cbn [mbind result_bind]).
  do 2 f_equal.
  - f_equal. clear x model par. revert mu Hlen.
    induction y as [|v y IH]; intros [|m mu] Hlen; simplify_eq/=;
      [reflexivity|].
    f_equal; [|apply IH; done].
    unfold cost_array1_at. case_bool_decide as Hv.
    + rewrite decide_True by done. reflexivity.
    + rewrite (decide_False (P := v = 0)) by done. cbn.
      rewrite (decide_False (P := v = 0)) by done.
      destruct (decide (m / v <= 0)); reflexivity.
  - f_equal. clear x model par. revert mu Hlen.
    induction y as [|v y IH]; intros [|m mu] Hlen; simplify_eq/=;
      [reflexivity|].
    f_equal; [|apply IH; done].
    unfold cost_array2_at. case_bool_decide as Hv.
    + rewrite decide_True by done. reflexivity.
    + rewrite decide_False by done. reflexivity.
Qed.

Lemma ma_sum_all_masked (a : ma.MaskedArray) :
  Forall (fun u => u = None) a → ma.sum a = Masked.
Proof.
  intros H. unfold ma.sum.
  assert (Hb : forallb (fun u => bool_decide (u = None)) a = true).
  { induction H as [|u a Hu _ IH]; [reflexivity|]. cbn.
    rewrite bool_decide_eq_true_2 by done. exact IH. }
  rewrite Hb. reflexivity.
Qed.

Lemma ma_sum_not_all_masked (a : ma.MaskedArray) (v : R) :
  Some v ∈ a → ma.sum a = Num (np.sum (map (default 0) a)).
Proof.
  intros H. unfold ma.sum.
  assert (Hb : forallb (fun u => bool_decide (u = None)) a = false).
  { induction a as [|u a IH]; [by apply elem_of_nil in H|].
    apply elem_of_cons in H as [<-|H]; cbn.
    - reflexivity.
    - rewrite IH by done. apply andb_false_r. }
  rewrite Hb. reflexivity.
Qed.

(** Without a zero count every element of [cost_array2] is masked, and
    so is the cost. *)
Lemma Poisson_cost_masked_without_zero_counts (x y : np.ndarray)
    (model : Model) (par : np.ndarray) :
  length (model x par) = length y →
  Forall (fun v => v ≠ 0) y →
  Poisson.cost_function x y model par = Ok Masked.
Proof.
  intros Hlen Hy. rewrite Poisson_cost_pointwise by done.
  rewrite (ma_sum_all_masked (zip_with cost_array2_at _ _)).
  - destruct (ma.sum _); reflexivity.
  - generalize dependent (model x par). intros mu _. revert mu.
    induction Hy as [|v y Hv _ IH]; intros [|m mu]; cbn; constructor; auto.
    unfold cost_array2_at. rewrite decide_False by done. reflexivity.
Qed.

(** Without a nonzero count every element of [cost_array1] is masked,
    and so is the cost. *)
Lemma Poisson_cost_masked_without_nonzero_counts (x y : np.ndarray)
    (model : Model) (par : np.ndarray) :
  length (model x par) = length y →
  Forall (fun v => v = 0) y →
  Poisson.cost_function x y model par = Ok Masked.
Proof.
  intros Hlen Hy. rewrite Poisson_cost_pointwise by done.
  rewrite (ma_sum_all_masked (zip_with cost_array1_at _ _)); [reflexivity|].
  generalize dependent (model x par). intros mu _. revert mu.
  induction Hy as [|v y Hv _ IH]; intros [|m mu]; cbn; constructor; auto.
  unfold cost_array1_at. rewrite decide_True by done. reflexivity.
Qed.

(** C1 at a dataset without zero counts: the single point [y = 3] with
    [mu = 2].  The array of the zero-count points has every element masked,
    its sum is the constant [masked], and so is the cost; the claim's sum
    is the number [2*(2-3) - 2*3*ln(2/3)]. *)
Theorem Poisson_cost_without_zero_counts_is_masked :
  Poisson.cost_function [1] [3] line_model [2; 0] = Ok Masked ∧
  Poisson.cost_function [1] [3] line_model [2; 0] ≠
  Ok (Num (big_sum 1 (fun i =>
             Poisson.deviance_term (nth i [3] 0)
               (nth i (line_model [1] [2; 0]) 0)))).
Proof.
  assert (H : Poisson.cost_function [1] [3] line_model [2; 0] = Ok Masked).
  { apply Poisson_cost_masked_without_zero_counts; [reflexivity|].
    constructor; [lra|constructor]. }
  split; [exact H|]. rewrite H. discriminate.
Qed.

Lemma zip_with_sum_of_terms (y mu : np.ndarray) :
  Forall2 (fun v m => 0 <= v ∧ (0 < v → 0 < m)) y mu →
  np.sum (map (default 0) (zip_with cost_array1_at y mu)) +
  np.sum (map (default 0) (zip_with cost_array2_at y mu)) =
  np.sum (zip_with Poisson.deviance_term y mu).
Proof.
  unfold np.sum.
  induction 1 as [|v m y mu [Hv Hm] _ IH]; cbn [zip_with map foldr]; [lra|].
  rewrite <- IH.
  generalize (foldr Rplus 0 (map (default 0) (zip_with cost_array1_at y mu)))
    as s1.
  generalize (foldr Rplus 0 (map (default 0) (zip_with cost_array2_at y mu)))
    as s2.
  intros s2 s1.
  unfold cost_array1_at, cost_array2_at, Poisson.deviance_term.
  destruct (decide (v = 0)) as [->|Hv0];
    unfold default, from_option, Datatypes.id; [lra|].
  rewrite decide_False; [lra|].
  apply Rlt_not_le, Rdiv_lt_0_compat; [apply Hm|]; lra.
Qed.

(** With counts that are not negative, a positive model value wherever the
    count is positive, at least one zero count and at least one nonzero
    count, the cost is the sum over the data points of the piecewise
    term. *)
Theorem Poisson_cost_with_both_kinds_of_counts (x y : np.ndarray)
    (model : Model) (par : np.ndarray) :
  Forall2 (fun v m => 0 <= v ∧ (0 < v → 0 < m)) y (model x par) →
  0 ∈ y →
  (∃ v, v ∈ y ∧ v ≠ 0) →
  Poisson.cost_function x y model par =
  Ok (Num (big_sum (length y) (fun i =>
             Poisson.deviance_term (nth i y 0)
               (nth i (model x par) 0)))).
Proof.
  intros Hy Hzero (v & Hv & Hv0).
  pose proof (Forall2_length _ _ _ Hy) as Hlen.
  rewrite Poisson_cost_pointwise by done.
  generalize dependent (model x par). intros mu Hy Hlen.
  assert (H2 : ∃ m, Some (2 * m) ∈ zip_with cost_array2_at y mu).
  { clear v Hv Hv0 Hlen. induction Hy as [|u m y mu _ _ IH].
    - by apply elem_of_nil in Hzero.
    - apply elem_of_cons in Hzero as [<-|Hin].
      + exists m. cbn. unfold cost_array2_at at 1.
        rewrite decide_True by done. left.
      + destruct (IH Hin) as [m' Hm']. exists m'. cbn. by right. }
  assert (H1 : ∃ c, Some c ∈ zip_with cost_array1_at y mu).
  { clear Hzero H2 Hlen. induction Hy as [|u m y mu [Hu Hm] Hy IH].
    - by apply elem_of_nil in Hv.
    - apply elem_of_cons in Hv as [<-|Hin].
      + eexists. cbn. unfold cost_array1_at at 1.
        rewrite decide_False by done. rewrite decide_False; [left|].
        apply Rlt_not_le, Rdiv_lt_0_compat; [apply Hm|]; lra.
      + destruct (IH Hin) as [c Hc]. exists c. cbn. by right. }
  destruct H1 as [c Hc], H2 as [m Hm].
  rewrite (ma_sum_not_all_masked _ _ Hc), (ma_sum_not_all_masked _ _ Hm).
  cbn [scalar_add]. rewrite zip_with_sum_of_terms by done.
  do 2 f_equal. rewrite np_sum_big_sum, length_zip_with, Hlen, Nat.min_id.
  apply big_sum_ext. intros i Hi. apply nth_zip_with_R; lia.
Qed.

Lemma Poisson_cost_with_both_kinds_of_counts_witness :
  Poisson.cost_function [1; 2] [0; 3] line_model [2; 0] =
  Ok (Num (big_sum 2 (fun i =>
             Poisson.deviance_term (nth i [0; 3] 0)
               (nth i (line_model [1; 2] [2; 0]) 0)))).
Proof.
  apply (Poisson_cost_with_both_kinds_of_counts [1; 2] [0; 3] line_model [2; 0]).
  - repeat constructor; cbn; lra.
  - left.
  - exists 3. split; [right; left | lra].
Defined.

(** ** Error propagation *)

Lemma big_sum_plus (n : nat) (f g : nat → R) :
  big_sum n (fun i => f i + g i) = big_sum n f + big_sum n g.
Proof. induction n as [|n IH]; cbn [big_sum]; [lra|]. rewrite IH. lra. Qed.

Lemma big_sum_scal (n : nat) (a : R) (f : nat → R) :
  big_sum n (fun i => a * f i) = a * big_sum n f.
Proof. induction n as [|n IH]; cbn [big_sum]; [lra|]. rewrite IH. lra. Qed.

Lemma big_sum_zero (n : nat) : big_sum n (fun _ => 0) = 0.
Proof. induction n as [|n IH]; cbn [big_sum]; [lra|]. rewrite IH. lra. Qed.

(** One index taken out of a sum. *)
Lemma big_sum_split_at (n i : nat) (f : nat → R) :
  (i < n)%nat →
  big_sum n f = f i + big_sum n (fun j => if decide (j = i) then 0 else f j).
Proof.
  induction n as [|n IH]; intros Hi; [lia|]. cbn [big_sum].
  destruct (decide (n = i)) as [->|Hne].
  - rewrite (big_sum_ext i (fun j => if decide (j = i) then 0 else f j) f).
    + lra.
    + intros j Hj. rewrite decide_False by lia. reflexivity.
  - rewrite IH by lia. lra.
Qed.

Lemma shape_rows (m : np.matrix) (r c : nat) :
  np.shape m = Some (r, c) →
  length m = r ∧ ∀ i, (i < r)%nat → length (nth i m []) = c.
Proof.
  unfold np.shape. destruct m as [|row rest]; [discriminate|].
  destruct (forallb _ rest) eqn:Hall; [|discriminate].
  intros [= <- <-]. split; [reflexivity|].
  intros [|i] Hi; [reflexivity|]. cbn [nth].
  cbn [length] in Hi.
  assert (Hin : nth i rest [] ∈ rest).
  { apply list_elem_of_In, nth_In. lia. }
  apply list_elem_of_In in Hin.
  rewrite forallb_forall in Hall. apply Hall in Hin.
  by apply bool_decide_eq_true in Hin.
Qed.

Lemma dot_big_sum (n : nat) (u v : np.ndarray) :
  length u = n → length v = n →
  dot u v = big_sum n (fun i => nth i u 0 * nth i v 0).
Proof.
  intros Hu Hv. unfold dot.
  rewrite np_sum_big_sum, length_zip_with, Hu, Hv, Nat.min_id.
  apply big_sum_ext. intros i Hi. apply nth_zip_with_R; lia.
Qed.

Lemma nth_map_default {A : Type} (f : A → R) (d : A) (l : list A) (i : nat) :
  f d = 0 → nth i (map f l) 0 = f (nth i l d).
Proof. intros H. rewrite <- H. apply map_nth. Qed.

Lemma nth_map_in_range {A : Type} (f : A → R) (d : A) (l : list A) (i : nat) :
  (i < length l)%nat → nth i (map f l) 0 = f (nth i l d).
Proof.
  intros Hi. rewrite (nth_indep _ 0 (f d)) by (by rewrite length_map).
  apply map_nth.
Qed.

Lemma nth_column (k i : nat) (m : np.matrix) :
  nth i (column k m) 0 = np.entry m i k.
Proof.
  unfold column, np.entry. apply (nth_map_default (fun row => nth k row 0)).
  destruct k; reflexivity.
Qed.

(** The double sum of [einsum] is the quadratic form of the matrix on
    the column of the gradient. *)
Lemma einsum_sum_quadratic_form (n k : nat) (g c : np.matrix) :
  length g = n →
  np.shape c = Some (n, n) →
  big_sum n (fun i => big_sum n (fun j =>
    np.entry g i k * np.entry c i j * np.entry g j k)) =
  quadratic_form (column k g) c.
Proof.
  intros Hg Hc. apply shape_rows in Hc as [Hlen Hrows].
  unfold quadratic_form, matvec.
  rewrite (dot_big_sum n) by (unfold column; rewrite ?length_map; lia).
  apply big_sum_ext. intros i Hi.
  rewrite nth_column.
  rewrite (nth_map_default (fun row => dot row (column k g)) [])
    by reflexivity.
  rewrite (dot_big_sum n) by (unfold column; rewrite ?length_map; auto).
  rewrite <- big_sum_scal. apply big_sum_ext. intros j Hj.
  rewrite nth_column. unfold np.entry. ring.
Qed.

Lemma map_nth_seq (f : R → R) (xs : np.ndarray) :
  map (fun k => f (nth k xs 0)) (seq 0 (length xs)) = map f xs.
Proof.
  induction xs as [|v xs IH] using rev_ind; [reflexivity|].
  rewrite length_app, Nat.add_1_r, seq_S, !map_app. cbn [map Nat.add].
  rewrite app_nth2, Nat.sub_diag by lia. cbn [nth]. f_equal.
  rewrite <- IH. apply map_ext_in. intros k Hk. apply in_seq in Hk.
  rewrite app_nth1 by lia. reflexivity.
Qed.

Lemma einsum_same_shape (g c : np.matrix) (n nk : nat) :
  np.shape g = Some (n, nk) →
  np.shape c = Some (n, n) →
  np.einsum_ik_ij_jk_k g c g =
  Ok (map (fun k => big_sum n (fun i => big_sum n (fun j =>
            np.entry g i k * np.entry c i j * np.entry g j k)))
          (seq 0 nk)).
Proof.
  intros Hg Hc. unfold np.einsum_ik_ij_jk_k. rewrite Hg, Hc.
  rewrite decide_True by done. f_equal.
  apply map_ext. intros k. rewrite np_sum_map_seq.
  apply big_sum_ext. intros i _. apply np_sum_map_seq.
Qed.

Lemma quadratic_form_diagonal_cross (n : nat) (v : np.ndarray)
    (c : np.matrix) :
  length v = n →
  np.shape c = Some (n, n) →
  quadratic_form v c = diagonal_terms n v c + cross_terms n v c.
Proof.
  intros Hv Hc. apply shape_rows in Hc as [Hlen Hrows].
  unfold quadratic_form, matvec, diagonal_terms, cross_terms.
  rewrite (dot_big_sum n) by (rewrite ?length_map; lia).
  rewrite <- big_sum_plus. apply big_sum_ext. intros i Hi.
  rewrite (nth_map_default (fun row => dot row v) []) by reflexivity.
  rewrite (dot_big_sum n) by auto.
  rewrite <- big_sum_scal.
  rewrite (big_sum_split_at n i) by done. unfold np.entry. f_equal; [ring|].
  apply big_sum_ext. intros j Hj. destruct (decide (j = i)); ring.
Qed.

(** With the covariance [[2, -2], [-2, 4]] and the gradient [(1, 1)] the
    quadratic form is 2, where the diagonal terms alone give 6: the cross
    terms count. *)
Example quadratic_form_counts_cross_terms :
  quadratic_form [1; 1] [[2; -2]; [-2; 4]] = 2 ∧
  diagonal_terms 2 [1; 1] [[2; -2]; [-2; 4]] = 6 ∧
  cross_terms 2 [1; 1] [[2; -2]; [-2; 4]] = -4.
Proof.
  unfold quadratic_form, matvec, dot, diagonal_terms, cross_terms, np.entry,
    np.sum.
  cbn [map zip_with foldr big_sum nth pow].
  repeat split; repeat (destruct (decide _); try lia); lra.
Qed.

(** C5. With the gradient an [n] by [K] array and the covariance [n] by
    [n], [get_yfit_error] returns for every x-point [k] the square root of
    the quadratic form [gradient(:,k)^T * covariance * gradient(:,k)]; that
    form is the sum of its diagonal terms and of the cross terms over all
    pairs of different parameters. *)
Theorem get_yfit_error_is_sqrt_of_quadratic_form
    (self : LikelihoodFit.t np.ndarray) (xs : np.ndarray)
    (gradient covariance : np.matrix) (n nk : nat) :
  LikelihoodFit.get_gradient self xs = Ok gradient →
  LikelihoodFit.get_covariance_matrix self = Ok covariance →
  np.shape gradient = Some (n, nk) →
  np.shape covariance = Some (n, n) →
  LikelihoodFit.get_yfit_error self xs =
    Ok (map (fun k => sqrt (quadratic_form (column k gradient) covariance))
            (seq 0 nk)) ∧
  ∀ k, quadratic_form (column k gradient) covariance =
       diagonal_terms n (column k gradient) covariance +
       cross_terms n (column k gradient) covariance.
Proof.
  intros Hg Hc Hsg Hsc. split.
  - unfold LikelihoodFit.get_yfit_error. rewrite Hg, Hc.
    cbn [mbind result_bind].
    rewrite (einsum_same_shape _ _ n nk) by done.
    cbn [mbind result_bind]. f_equal. unfold np.sqrt. rewrite map_map.
    apply map_ext. intros k. f_equal.
    apply einsum_sum_quadratic_form; [|done].
    by apply shape_rows in Hsg as [? _].
  - intros k. apply quadratic_form_diagonal_cross; [|done].
    unfold column. rewrite length_map. by apply shape_rows in Hsg as [? _].
Qed.

Lemma get_yfit_error_is_sqrt_of_quadratic_form_witness :
  ∃ gradient covariance,
    LikelihoodFit.get_gradient fitted_session [1; 3] = Ok gradient ∧
    LikelihoodFit.get_covariance_matrix fitted_session = Ok covariance ∧
    LikelihoodFit.get_yfit_error fitted_session [1; 3] =
      Ok (map (fun k => sqrt (quadratic_form (column k gradient) covariance))
              (seq 0 2)) ∧
    ∀ k, quadratic_form (column k gradient) covariance =
         diagonal_terms 2 (column k gradient) covariance +
         cross_terms 2 (column k gradient) covariance.
Proof.
  eexists _, _. split; [reflexivity|]. split; [reflexivity|].
  apply (get_yfit_error_is_sqrt_of_quadratic_form fitted_session [1; 3]
           _ _ 2 2); reflexivity.
Defined.

(** ** Indexing with an index in range *)

Lemma py_index_of_nat (n i : nat) :
  (i < n)%nat → py_index n (Z.of_nat i) = Some i.
Proof.
  intros Hi. unfold py_index. rewrite decide_True by lia.
  by rewrite Nat2Z.id.
Qed.

Lemma getitem_of_nat {A : Type} (a : list A) (i : nat) (v : A) :
  a !! i = Some v → getitem a (Z.of_nat i) = Ok v.
Proof.
  intros Hv. unfold getitem.
  rewrite py_index_of_nat by (by eapply lookup_lt_Some). cbn. by rewrite Hv.
Qed.

Lemma setitem_of_nat {A : Type} (a : list A) (i : nat) (v : A) :
  (i < length a)%nat → setitem a (Z.of_nat i) v = Ok (<[i:=v]> a).
Proof. intros Hi. unfold setitem. by rewrite py_index_of_nat. Qed.

(** The central difference of [par[0]*x] in its parameter is [x]. *)
Lemma proportional_central_difference (p step : R) (xs : np.ndarray) :
  step ≠ 0 →
  map (fun v => v / (2 * step))
    (zip_with Rminus (proportional_model xs [p + step])
                     (proportional_model xs [p - step])) = xs.
Proof.
  intros Hstep. unfold proportional_model. cbn [nth].
  induction xs as [|v xs IH]; [reflexivity|].
  cbn [map zip_with]. rewrite IH. f_equal. field. exact Hstep.
Qed.

(** C7. For the model [par[0]*x], a fit result with one estimator, a
    1 by 1 inverse curvature and [error[0]] not zero, [get_yfit_error]
    returns [|x| * error[0]] at every x-point. *)
Theorem get_yfit_error_of_proportional_model
    (self : LikelihoodFit.t np.ndarray) (r : OptimizeResult.t np.ndarray)
    (p h e : R) (xs : np.ndarray) :
  LikelihoodFit.get_minimize_result self = Ok r →
  r.(OptimizeResult.x) = [p] →
  r.(OptimizeResult.hess_inv) = [[h]] →
  self.(LikelihoodFit.model) = proportional_model →
  LikelihoodFit.get_errors self = Ok [e] →
  e ≠ 0 →
  LikelihoodFit.get_yfit_error self xs = Ok (map (fun xi => Rabs xi * e) xs).
Proof.
  intros Hr Hx Hh Hmodel He Hne.
  unfold LikelihoodFit.get_errors, LikelihoodFit.get_covariance_matrix in He.
  rewrite Hr in He. cbn [mbind result_bind] in He. rewrite Hh in He.
  cbn in He. injection He as He.
  assert (Hstep : e * 0.01 ≠ 0) by (intros H0; apply Hne; lra).
  unfold LikelihoodFit.get_yfit_error, LikelihoodFit.get_gradient,
    LikelihoodFit.get_errors, LikelihoodFit.get_estimators,
    LikelihoodFit.get_covariance_matrix.
  rewrite Hr. cbn [mbind result_bind]. rewrite Hx, Hh, Hmodel.
  cbn [np.scale np.diagonal np.diagonal_from np.sqrt map lookup list_lookup
       length seq for_each np.zeros_like].
  rewrite (getitem_of_nat _ 0 (sqrt (2 * h) * 0.01)) by reflexivity.
  cbn [mbind result_bind]. rewrite setitem_of_nat by (cbn; lia).
  cbn [mbind result_bind]. rewrite He.
  unfold np.subtract, np.add.
  rewrite !broadcast_same_length
    by (unfold proportional_model; rewrite ?length_map; reflexivity).
  cbn [mbind result_bind mret result_ret zip_with app insert list_insert].
  rewrite broadcast_same_length
    by (unfold proportional_model; rewrite ?length_map; reflexivity).
  cbn [mbind result_bind mret result_ret].
  rewrite proportional_central_difference by exact Hstep.
  rewrite (einsum_same_shape [xs] [[2 * h]] 1 (length xs)) by reflexivity.
  cbn [mbind result_bind]. f_equal. unfold np.sqrt. rewrite map_map.
  rewrite <- (map_nth_seq (fun xi => Rabs xi * e) xs).
  apply map_ext. intros k. cbn [big_sum]. unfold np.entry. cbn [nth].
  replace (0 + (0 + nth k xs 0 * (2 * h) * nth k xs 0))
    with ((nth k xs 0)² * (2 * h)) by (unfold Rsqr; ring).
  assert (Hpos : 0 <= 2 * h).
  { destruct (Rle_dec 0 (2 * h)) as [?|Hneg]; [done|].
    exfalso. apply Hne. rewrite <- He. apply sqrt_neg_0. lra. }
  rewrite sqrt_mult by (auto using Rle_0_sqr).
  rewrite sqrt_Rsqr_abs, He. reflexivity.
Qed.

Lemma get_yfit_error_of_proportional_model_witness :
  LikelihoodFit.get_yfit_error proportional_session [1; -2] =
  Ok (map (fun xi => Rabs xi * sqrt (2 * 2)) [1; -2]).
Proof.
  apply (get_yfit_error_of_proportional_model proportional_session
           (OptimizeResult.mk [3] 0 true 0%Z [[2]]) 3 2 (sqrt (2 * 2)) [1; -2]);
    try reflexivity.
  intros H. apply sqrt_eq_0 in H; lra.
Defined.

(** ** The confidence ellipse *)

Lemma zip_with_map_map {A B C D : Type} (g : B → C → D) (f1 : A → B)
    (f2 : A → C) (l : list A) :
  zip_with g (map f1 l) (map f2 l) = map (fun v => g (f1 v) (f2 v)) l.
Proof. induction l as [|v l IH]; [reflexivity|]. cbn. by rewrite IH. Qed.

(** The Cholesky factor of a positive-definite symmetric 2 by 2 matrix. *)
Lemma cholesky_positive_definite (a b d : R) :
  0 < a → 0 < a * d - b * b →
  np.cholesky [[a; b]; [b; d]] =
  Ok [[sqrt a; 0]; [b / sqrt a; sqrt (d - b / sqrt a * (b / sqrt a))]] ∧
  0 < d - b / sqrt a * (b / sqrt a).
Proof.
  intros Ha Hdet.
  assert (Hs : 0 < sqrt a) by (by apply sqrt_lt_R0).
  assert (Hpos : 0 < d - b / sqrt a * (b / sqrt a)).
  { replace (b / sqrt a * (b / sqrt a)) with (b * b / a).
    - apply Rmult_lt_reg_l with a; [done|].
      replace (a * (d - b * b / a)) with (a * d - b * b) by (field; lra). lra.
    - rewrite <- (sqrt_sqrt a) at 1 by lra. field. lra. }
  split; [|exact Hpos].
  unfold np.cholesky. rewrite decide_True by done.
  rewrite decide_True by done. reflexivity.
Qed.

Lemma nth_insert_eq (l : np.ndarray) (i : nat) (v : R) :
  (i < length l)%nat → nth i (<[i:=v]> l) 0 = v.
Proof.
  revert i. induction l as [|u l IH]; intros [|i] Hi; cbn in *; try lia;
    [reflexivity|]. apply IH. lia.
Qed.

Lemma nth_insert_ne (l : np.ndarray) (i k : nat) (v : R) :
  i ≠ k → nth k (<[i:=v]> l) 0 = nth k l 0.
Proof.
  revert i k. induction l as [|u l IH]; intros [|i] [|k] Hne; cbn;
    try reflexivity; try lia. apply IH. lia.
Qed.

(** [linspace] gives [num] samples; from two samples on, sample [k] is
    [start + k*(stop-start)/(num-1)]: evenly spaced from [start] to
    [stop]. *)
Lemma linspace_length (start stop : R) (num : nat) :
  length (np.linspace start stop num) = num.
Proof.
  unfold np.linspace. destruct (decide (1 < num)%nat);
    rewrite ?length_insert, length_map, length_seq; reflexivity.
Qed.

Lemma linspace_nth (start stop : R) (num k : nat) :
  (2 <= num)%nat → (k < num)%nat →
  nth k (np.linspace start stop num) 0 =
  start + INR k * ((stop - start) / INR (num - 1)).
Proof.
  intros Hnum Hk. unfold np.linspace.
  rewrite decide_True by lia.
  assert (Hdiv : INR (num - 1) ≠ 0) by (apply not_0_INR; lia).
  destruct (decide (k = num - 1)%nat) as [->|Hne].
  - rewrite nth_insert_eq by (rewrite length_map, length_seq; lia).
    field. exact Hdiv.
  - rewrite nth_insert_ne by lia.
    rewrite (nth_map_in_range _ 0%nat) by (rewrite length_seq; lia).
    rewrite seq_nth by lia. rewrite decide_True by lia. cbn [Nat.add]. ring.
Qed.

(** C6. For a positive-definite symmetric 2 by 2 covariance, the
    function factors it into the lower-triangular [L] with positive
    diagonal and [L @ L.T = cova], takes the [npoints] angles of
    [linspace(0, 2*pi, npoints)], which from two points on are the evenly
    spaced [k * 2*pi/(npoints-1)], and returns the coordinates of the
    points [nsigma * L * (cos t, sin t) + center] in the order of the
    angles: first the row of their first coordinates, then the row of
    their second coordinates. *)
Theorem get_confidence_ellipse_maps_unit_circle
    (c0 c1 a b d nsigma : R) (npoints : nat) :
  0 < a → 0 < a * d - b * b →
  ∃ l00 l10 l11 t,
    np.cholesky [[a; b]; [b; d]] = Ok [[l00; 0]; [l10; l11]] ∧
    (0 < l00 ∧ 0 < l11 ∧
     l00 * l00 = a ∧ l10 * l00 = b ∧ l10 * l10 + l11 * l11 = d) ∧
    (t = np.linspace 0 (2 * PI) npoints ∧ length t = npoints ∧
     ((2 <= npoints)%nat → ∀ k, (k < npoints)%nat →
        nth k t 0 = INR k * (2 * PI / INR (npoints - 1)))) ∧
    get_confidence_ellipse [c0; c1] [[a; b]; [b; d]] nsigma npoints =
    Ok [map (fun tk => nsigma * (l00 * cos tk + 0 * sin tk) + c0) t;
        map (fun tk => nsigma * (l10 * cos tk + l11 * sin tk) + c1) t].
Proof.
  intros Ha Hdet.
  destruct (cholesky_positive_definite a b d Ha Hdet) as [Hchol Hpos].
  assert (Hs : 0 < sqrt a) by (by apply sqrt_lt_R0).
  exists (sqrt a), (b / sqrt a), (sqrt (d - b / sqrt a * (b / sqrt a))),
    (np.linspace 0 (2 * PI) npoints).
  split; [exact Hchol|]. split; [|split].
  - repeat split.
    + exact Hs.
    + by apply sqrt_lt_R0.
    + apply sqrt_sqrt. lra.
    + field. lra.
    + rewrite sqrt_sqrt by lra. ring.
  - split; [reflexivity|]. split; [apply linspace_length|].
    intros Hn k Hk. rewrite linspace_nth by done.
    rewrite Rminus_0_r. ring.
  - unfold get_confidence_ellipse. rewrite Hchol.
    cbn [mbind result_bind].
    unfold np.column_stack, np.cos, np.sin.
    rewrite decide_True by (rewrite !length_map; reflexivity).
    cbn [mbind result_bind]. rewrite zip_with_map_map.
    unfold np.add_rows. rewrite decide_True by reflexivity.
    cbn [mbind result_bind].
    unfold np.transpose, np.matmul, np.scale. cbn [seq map].
    rewrite !map_map. unfold np.entry, np.sum.
    cbn [map nth zip_with foldr].
    do 2 f_equal; [|f_equal]; apply map_ext; intros tk; ring.
Qed.

Lemma get_confidence_ellipse_maps_unit_circle_witness :
  ∃ l00 l10 l11 t,
    np.cholesky [[4; 2]; [2; 5]] = Ok [[l00; 0]; [l10; l11]] ∧
    (0 < l00 ∧ 0 < l11 ∧
     l00 * l00 = 4 ∧ l10 * l00 = 2 ∧ l10 * l10 + l11 * l11 = 5) ∧
    (t = np.linspace 0 (2 * PI) 100 ∧ length t = 100%nat ∧
     ((2 <= 100)%nat → ∀ k, (k < 100)%nat →
        nth k t 0 = INR k * (2 * PI / INR (100 - 1)))) ∧
    get_confidence_ellipse [1; -1] [[4; 2]; [2; 5]] 2 100 =
    Ok [map (fun tk => 2 * (l00 * cos tk + 0 * sin tk) + 1) t;
        map (fun tk => 2 * (l10 * cos tk + l11 * sin tk) + -1) t].
Proof.
  apply (get_confidence_ellipse_maps_unit_circle 1 (-1) 4 2 5 2 100); lra.
Defined.

(** ** Loops over the store *)

(** A loop whose body computes a value that does not depend on the store
    and leaves every array of the store as it was does so as a whole. *)
Lemma for_each_frame {S A : Type} (Inv : store → Prop)
    (body : S → A → M S) (pure : S → A → result S) :
  (∀ σ σ', Inv σ → σ ⊆ σ' → Inv σ') →
  (∀ acc v σ, Inv σ →
     (body acc v σ).1 = pure acc v ∧ σ ⊆ (body acc v σ).2) →
  ∀ l acc σ, Inv σ →
    (for_each l body acc σ).1 = for_each l pure acc ∧
    σ ⊆ (for_each l body acc σ).2.
Proof.
  intros Hmono Hbody l. induction l as [|v l IH]; intros acc σ Hinv.
  - split; reflexivity.
  - cbn [for_each]. unfold mbind at 1 3. unfold M_bind.
    destruct (Hbody acc v σ Hinv) as [Hval Hsub].
    destruct (body acc v σ) as [[acc'|e] σ'] eqn:Hb; cbn [fst snd] in *;
      rewrite <- Hval; cbn [mbind result_bind].
    + destruct (IH acc' σ' (Hmono _ _ Hinv Hsub)) as [IHval IHsub].
      split; [exact IHval|]. by etrans.
    + split; [reflexivity|exact Hsub].
Qed.

(** ** The cost-surface scan *)

Section vcost_function.

Context (self : LikelihoodFit.t loc) (r : OptimizeResult.t loc).
Context (est : np.ndarray).
Context (parx_index pary_index : Z).
Hypothesis fitted : LikelihoodFit.get_minimize_result self = Ok r.

Local Abbreviation cell :=
  (LikelihoodFit.vcost_cell self parx_index pary_index).
Local Abbreviation cell_pure :=
  (cell_append self.(LikelihoodFit.cost_function) est parx_index pary_index).

(** One cell: it works on a new array, its value is [cell_value], and
    every array that was in the store is as before. *)
Lemma cell_frame (y : R) (vcost : list scalar) (x : R) (σ : store) :
  σ !! r.(OptimizeResult.x) = Some est →
  (cell y vcost x σ).1 = cell_pure y vcost x ∧ σ ⊆ (cell y vcost x σ).2.
Proof.
  intros Hest.
  pose proof (is_fresh (dom σ)) as Hfresh.
  apply not_elem_of_dom in Hfresh.
  unfold LikelihoodFit.vcost_cell, cell_append, cell_value,
    LikelihoodFit.get_estimators.
  rewrite fitted. cbn [mbind result_bind].
  cbv [mbind M_bind lift ndarray_copy ndarray_setitem deref alloc assign
       mret M_ret].
  rewrite Hest, lookup_insert_eq.
  destruct (setitem est parx_index x) as [a1|e1]; cbn [result_bind fst snd].
  2: { split; [reflexivity|]. by apply insert_subseteq. }
  rewrite lookup_insert_eq.
  destruct (setitem a1 pary_index y) as [a2|e2]; cbn [result_bind fst snd].
  2: { split; [reflexivity|]. rewrite insert_insert_eq.
       by apply insert_subseteq. }
  rewrite lookup_insert_eq.
  destruct (LikelihoodFit.cost_function self a2) as [c|e3];
    cbn [result_bind fst snd]; (split; [reflexivity|]);
    rewrite !insert_insert_eq; by apply insert_subseteq.
Qed.

(** The whole scan: its value is [vcost_values] of the estimator vector,
    and every array that was in the store is as before. *)
Lemma vcost_function_frame (parx pary : list R) (σ : store) :
  σ !! r.(OptimizeResult.x) = Some est →
  (LikelihoodFit.vcost_function self parx_index pary_index parx pary σ).1 =
    vcost_values self.(LikelihoodFit.cost_function) est
      parx_index pary_index parx pary ∧
  σ ⊆ (LikelihoodFit.vcost_function self parx_index pary_index parx pary σ).2.
Proof.
  intros Hest.
  set (Inv := fun σ : store => σ !! r.(OptimizeResult.x) = Some est).
  assert (Hmono : ∀ σ σ', Inv σ → σ ⊆ σ' → Inv σ').
  { intros σ1 σ2 H1 Hsub. by eapply lookup_weaken. }
  assert (Hinner : ∀ y vcost σ', Inv σ' →
    (for_each parx (cell y) vcost σ').1 = for_each parx (cell_pure y) vcost ∧
    σ' ⊆ (for_each parx (cell y) vcost σ').2).
  { intros y vcost σ' Hinv.
    apply (for_each_frame Inv (cell y) (cell_pure y)); [done| |done].
    intros acc v σ1 H1. by apply cell_frame. }
  pose proof (for_each_frame Inv
    (fun vcost y => for_each parx (cell y) vcost)
    (fun vcost y => for_each parx (cell_pure y) vcost)
    Hmono (fun acc y σ' H => Hinner y acc σ' H) pary [] σ Hest)
    as [Hval Hsub].
  set (out := for_each (M := M) pary
                (fun vcost y => for_each parx (cell y) vcost) [] σ) in *.
  assert (Hrun :
    LikelihoodFit.vcost_function self parx_index pary_index parx pary σ =
    match out with
    | (Ok vcost, σ') => (np.reshape vcost (length pary) (length parx), σ')
    | (Raise e, σ') => (Raise e, σ')
    end) by reflexivity.
  rewrite Hrun. unfold vcost_values.
  rewrite <- Hval.
  destruct out as [[vcost|e] σ']; cbn [fst snd mbind result_bind] in *;
    (split; [reflexivity|exact Hsub]).
Qed.

End vcost_function.

(** C9. With a fit result stored, whatever the indices and the grids
    and whether the scan returns or raises, every array that was in the
    store before [vcost_function] is unchanged after it, so
    [get_estimators()] names the same vector with the same contents; the
    value of the scan is the one computed cell by cell from copies of that
    vector with the two indices overridden. *)
Theorem vcost_function_leaves_estimators_unchanged
    (self : LikelihoodFit.t loc) (r : OptimizeResult.t loc)
    (est : np.ndarray) (parx_index pary_index : Z) (parx pary : list R)
    (σ : store) :
  LikelihoodFit.get_minimize_result self = Ok r →
  σ !! r.(OptimizeResult.x) = Some est →
  σ ⊆ (LikelihoodFit.vcost_function self parx_index pary_index parx pary σ).2 ∧
  estimators_in self σ = Ok est ∧
  estimators_in self
    (LikelihoodFit.vcost_function self parx_index pary_index parx pary σ).2 =
    Ok est ∧
  (LikelihoodFit.vcost_function self parx_index pary_index parx pary σ).1 =
    vcost_values self.(LikelihoodFit.cost_function) est
      parx_index pary_index parx pary.
Proof.
  intros Hr Hest.
  destruct (vcost_function_frame self r est parx_index pary_index Hr
              parx pary σ Hest) as [Hval Hsub].
  assert (Hread : ∀ σ', σ ⊆ σ' → estimators_in self σ' = Ok est).
  { intros σ' Hσ'. unfold estimators_in, LikelihoodFit.get_estimators.
    rewrite Hr. cbn [mbind result_bind]. unfold deref.
    by rewrite (lookup_weaken _ _ _ _ Hest Hσ'). }
  repeat split; [exact Hsub | by apply Hread | by apply Hread | exact Hval].
Qed.

Lemma vcost_function_leaves_estimators_unchanged_witness :
  scan_store ⊆
    (LikelihoodFit.vcost_function scan_session 0 1 [1; 2; 3] [0; 1]
       scan_store).2 ∧
  estimators_in scan_session scan_store = Ok [2; 1] ∧
  estimators_in scan_session
    (LikelihoodFit.vcost_function scan_session 0 1 [1; 2; 3] [0; 1]
       scan_store).2 = Ok [2; 1] ∧
  (LikelihoodFit.vcost_function scan_session 0 1 [1; 2; 3] [0; 1]
     scan_store).1 =
    vcost_values scan_session.(LikelihoodFit.cost_function) [2; 1]
      0 1 [1; 2; 3] [0; 1].
Proof.
  apply (vcost_function_leaves_estimators_unchanged scan_session
           (OptimizeResult.mk 0%nat 0 true 0%Z [[1; -1]; [-1; 2]])
           [2; 1] 0 1 [1; 2; 3] [0; 1] scan_store); reflexivity.
Defined.

(** A write through the estimator reference itself would be seen by
    [get_estimators()]: the copy in [vcost_function] is what protects the
    fit result. *)
Example setitem_through_estimator_reference :
  estimators_in scan_session (ndarray_setitem 0%nat 0 5 scan_store).2 =
  Ok [5; 1].
Proof. reflexivity. Qed.

(** With both indices the same, the second assignment overwrites the
    first. *)
Lemma cell_value_same_index (cost : np.ndarray → result scalar)
    (est : np.ndarray) (i : Z) (k : nat) (x y : R) :
  py_index (length est) i = Some k →
  cell_value cost est i i x y = cost (<[k:=y]> est).
Proof.
  intros Hk. unfold cell_value, setitem. rewrite Hk.
  cbn [mbind result_bind]. rewrite length_insert, Hk.
  cbn [mbind result_bind]. by rewrite list_insert_insert_eq.
Qed.

Lemma cell_value_same_index_any_x (cost : np.ndarray → result scalar)
    (est : np.ndarray) (i : Z) (x x' y : R) :
  cell_value cost est i i x y = cell_value cost est i i x' y.
Proof.
  destruct (py_index (length est) i) as [k|] eqn:Hk.
  - by rewrite !(cell_value_same_index _ _ _ k).
  - unfold cell_value, setitem. by rewrite Hk.
Qed.

(** [np.reshape] of rows of one length laid end to end gives the rows
    back. *)
Lemma reshape_concat {A : Type} (rows : list (list A)) (n : nat) :
  Forall (fun row => length row = n) rows →
  np.reshape (concat rows) (length rows) n = Ok rows.
Proof.
  intros Hrows. unfold np.reshape.
  assert (Hlen : length (concat rows) = (length rows * n)%nat).
  { induction Hrows as [|row rows Hrow _ IH]; [reflexivity|].
    cbn [concat length]. rewrite length_app, IH, Hrow. lia. }
  rewrite decide_True by done. f_equal. clear Hlen.
  induction Hrows as [|row rows Hrow Hrows IH]; [reflexivity|].
  cbn [length seq map concat]. f_equal.
  - rewrite Nat.mul_0_l, drop_0. by rewrite take_app_length'.
  - rewrite <- seq_shift, map_map. rewrite <- IH at 2.
    apply map_ext. intros j. f_equal.
    replace (S j * n)%nat with (length row + j * n)%nat by lia.
    by rewrite drop_app_add.
Qed.

(** The inner loop when every cell of the row has the cost [c]. *)
Lemma row_of_constant_cells (cost : np.ndarray → result scalar)
    (est : np.ndarray) (parx_index pary_index : Z) (y : R) (c : scalar)
    (parx : list R) (vcost : list scalar) :
  (∀ x, cell_value cost est parx_index pary_index x y = Ok c) →
  for_each parx (cell_append cost est parx_index pary_index y) vcost =
  Ok (vcost ++ replicate (length parx) c).
Proof.
  intros Hcell. revert vcost.
  induction parx as [|x parx IH]; intros vcost; cbn [for_each length replicate].
  - by rewrite app_nil_r.
  - assert (Hx : cell_append cost est parx_index pary_index y vcost x =
                 Ok (vcost ++ [c])).
    { unfold cell_append. by rewrite Hcell. }
    rewrite Hx. cbn [mbind result_bind].
    rewrite IH. by rewrite <- app_assoc.
Qed.

(** C10. With [parx_index] and [pary_index] the same valid index, and a
    cost function that returns on the estimator vector with that component
    set to each value of [pary], the grid has in row [r] the cost at the
    estimator vector with that component set to [pary[r]], in every column:
    only the number of values of [parx] enters the result, not the
    values. *)
Theorem vcost_function_same_index_pary_wins
    (self : LikelihoodFit.t loc) (r : OptimizeResult.t loc)
    (est : np.ndarray) (index : Z) (k : nat) (parx pary : list R)
    (costs : list scalar) (σ : store) :
  LikelihoodFit.get_minimize_result self = Ok r →
  σ !! r.(OptimizeResult.x) = Some est →
  py_index (length est) index = Some k →
  Forall2 (fun y c => self.(LikelihoodFit.cost_function) (<[k:=y]> est) = Ok c)
    pary costs →
  (LikelihoodFit.vcost_function self index index parx pary σ).1 =
    Ok (map (fun c => replicate (length parx) c) costs) ∧
  ∀ parx', length parx' = length parx →
    (LikelihoodFit.vcost_function self index index parx' pary σ).1 =
    (LikelihoodFit.vcost_function self index index parx pary σ).1.
Proof.
  intros Hr Hest Hk Hcosts.
  assert (Hgrid : ∀ px,
    (LikelihoodFit.vcost_function self index index px pary σ).1 =
    Ok (map (fun c => replicate (length px) c) costs)).
  { intros px.
    destruct (vcost_function_frame self r est index index Hr px pary σ Hest)
      as [-> _].
    unfold vcost_values.
    assert (Hloop : ∀ vcost,
      for_each pary (fun vcost y =>
        for_each px (cell_append self.(LikelihoodFit.cost_function) est
                       index index y) vcost) vcost =
      Ok (vcost ++ concat (map (fun c => replicate (length px) c) costs))).
    { induction Hcosts as [|y c pary costs Hc _ IH]; intros vcost;
        cbn [for_each map concat].
      - by rewrite app_nil_r.
      - rewrite (row_of_constant_cells _ _ _ _ _ c).
        + cbn [mbind result_bind]. rewrite IH. by rewrite <- app_assoc.
        + intros x. by rewrite (cell_value_same_index _ _ _ k). }
    rewrite Hloop. cbn [mbind result_bind app].
    rewrite (Forall2_length _ _ _ Hcosts).
    rewrite <- (length_map (fun c => replicate (length px) c) costs).
    apply reshape_concat.
    apply Forall_forall. intros row Hrow.
    apply list_elem_of_In, in_map_iff in Hrow as (c & <- & _).
    apply length_replicate. }
  split; [apply Hgrid|].
  intros parx' Hlen. rewrite !Hgrid, Hlen. reflexivity.
Qed.

Lemma vcost_function_same_index_pary_wins_witness :
  ∃ c0 c1,
    (LikelihoodFit.vcost_function scan_session 1 1 [7; 8; 9] [0; 1]
       scan_store).1 =
      Ok (map (fun c => replicate 3 c) [c0; c1]) ∧
    ∀ parx', length parx' = 3%nat →
      (LikelihoodFit.vcost_function scan_session 1 1 parx' [0; 1]
         scan_store).1 =
      (LikelihoodFit.vcost_function scan_session 1 1 [7; 8; 9] [0; 1]
         scan_store).1.
Proof.
  eexists _, _.
  apply (vcost_function_same_index_pary_wins scan_session
           (OptimizeResult.mk 0%nat 0 true 0%Z [[1; -1]; [-1; 2]])
           [2; 1] 1 1 [7; 8; 9] [0; 1] _ scan_store); try reflexivity.
  repeat constructor.
Defined.

(** ** The method get_confidence_ellipse *)

(** The method calls the module-level function on the pair of estimators
    and on the two by two block of the covariance matrix for the two
    indices. *)
Lemma get_confidence_ellipse_of_session
    (self : LikelihoodFit.t np.ndarray) (r : OptimizeResult.t np.ndarray)
    (xindex yindex : nat) (ex ey cxx cxy cyx cyy nsigma : R) (npoints : nat) :
  LikelihoodFit.get_minimize_result self = Ok r →
  r.(OptimizeResult.x) !! xindex = Some ex →
  r.(OptimizeResult.x) !! yindex = Some ey →
  r.(OptimizeResult.hess_inv) !! xindex ≫= (.!! xindex) = Some cxx →
  r.(OptimizeResult.hess_inv) !! xindex ≫= (.!! yindex) = Some cxy →
  r.(OptimizeResult.hess_inv) !! yindex ≫= (.!! xindex) = Some cyx →
  r.(OptimizeResult.hess_inv) !! yindex ≫= (.!! yindex) = Some cyy →
  LikelihoodFit.get_confidence_ellipse self (Z.of_nat xindex)
    (Z.of_nat yindex) nsigma npoints =
  get_confidence_ellipse [ex; ey]
    [[2 * cxx; 2 * cxy]; [2 * cyx; 2 * cyy]] nsigma npoints.
Proof.
  intros Hr Hex Hey Hxx Hxy Hyx Hyy.
  unfold LikelihoodFit.get_confidence_ellipse, LikelihoodFit.get_estimators,
    LikelihoodFit.get_covariance_matrix.
  rewrite Hr. cbn [mbind result_bind].
  rewrite (getitem_of_nat _ _ _ Hex). cbn [mbind result_bind].
  rewrite (getitem_of_nat _ _ _ Hey). cbn [mbind result_bind].
  destruct (OptimizeResult.hess_inv r !! xindex) as [rx|] eqn:Hrx;
    [|discriminate].
  destruct (OptimizeResult.hess_inv r !! yindex) as [ry|] eqn:Hry;
    [|discriminate].
  cbn in Hxx, Hxy, Hyx, Hyy.
  assert (Hscale : ∀ (m : np.matrix) i row,
    m !! i = Some row → np.scale 2 m !! i = Some (map (Rmult 2) row)).
  { intros m i row Hm. unfold np.scale.
    change (map (map (Rmult 2)) m)
      with (fmap (M := list) (map (Rmult 2)) m).
    by rewrite list_lookup_fmap, Hm. }
  assert (Hrow : ∀ (row : np.ndarray) i v,
    row !! i = Some v → map (Rmult 2) row !! i = Some (2 * v)).
  { intros row i v Hv.
    change (map (Rmult 2) row) with (fmap (M := list) (Rmult 2) row).
    by rewrite list_lookup_fmap, Hv. }
  rewrite (getitem_of_nat _ _ _ (Hscale _ _ _ Hrx)). cbn [mbind result_bind].
  rewrite (getitem_of_nat _ _ _ (Hscale _ _ _ Hry)). cbn [mbind result_bind].
  rewrite (getitem_of_nat _ _ _ (Hrow _ _ _ Hxx)). cbn [mbind result_bind].
  rewrite (getitem_of_nat _ _ _ (Hrow _ _ _ Hxy)). cbn [mbind result_bind].
  rewrite (getitem_of_nat _ _ _ (Hrow _ _ _ Hyx)). cbn [mbind result_bind].
  rewrite (getitem_of_nat _ _ _ (Hrow _ _ _ Hyy)). cbn [mbind result_bind].
  reflexivity.
Qed.

(** * Further properties of the module *)

(** ** The session before, after and across fits *)

(** X1. Until a fit has stored a result, every diagnostic raises
    [AttributeError]. *)
Theorem diagnostics_before_fit_raise_AttributeError
    (self : LikelihoodFit.t np.ndarray) (xs : np.ndarray) (xindex yindex : Z)
    (nsigma : R) (npoints : nat) :
  self.(LikelihoodFit.fit_result) = None →
  LikelihoodFit.get_estimators self = Raise AttributeError ∧
  LikelihoodFit.get_errors self = Raise AttributeError ∧
  LikelihoodFit.get_covariance_matrix self = Raise AttributeError ∧
  LikelihoodFit.get_correlation_matrix self = Raise AttributeError ∧
  LikelihoodFit.get_deviance self = Raise AttributeError ∧
  LikelihoodFit.get_ndof self = Raise AttributeError ∧
  LikelihoodFit.get_minimize_result self = Raise AttributeError ∧
  LikelihoodFit.get_yfit self xs = Raise AttributeError ∧
  LikelihoodFit.get_gradient self xs = Raise AttributeError ∧
  LikelihoodFit.get_yfit_error self xs = Raise AttributeError ∧
  LikelihoodFit.get_confidence_ellipse self xindex yindex nsigma npoints =
    Raise AttributeError.
Proof.
  intros Hnone.
  unfold LikelihoodFit.get_confidence_ellipse, LikelihoodFit.get_yfit_error,
    LikelihoodFit.get_gradient, LikelihoodFit.get_yfit, LikelihoodFit.get_ndof,
    LikelihoodFit.get_correlation_matrix, LikelihoodFit.get_errors,
    LikelihoodFit.get_deviance, LikelihoodFit.get_covariance_matrix,
    LikelihoodFit.get_estimators, LikelihoodFit.get_minimize_result.
  rewrite Hnone. repeat split.
Qed.

Lemma diagnostics_before_fit_raise_AttributeError_witness :
  LikelihoodFit.get_estimators fresh_session = Raise AttributeError ∧
  LikelihoodFit.get_errors fresh_session = Raise AttributeError ∧
  LikelihoodFit.get_covariance_matrix fresh_session = Raise AttributeError ∧
  LikelihoodFit.get_correlation_matrix fresh_session = Raise AttributeError ∧
  LikelihoodFit.get_deviance fresh_session = Raise AttributeError ∧
  LikelihoodFit.get_ndof fresh_session = Raise AttributeError ∧
  LikelihoodFit.get_minimize_result fresh_session = Raise AttributeError ∧
  LikelihoodFit.get_yfit fresh_session [1] = Raise AttributeError ∧
  LikelihoodFit.get_gradient fresh_session [1] = Raise AttributeError ∧
  LikelihoodFit.get_yfit_error fresh_session [1] = Raise AttributeError ∧
  LikelihoodFit.get_confidence_ellipse fresh_session 0 1 1 100 =
    Raise AttributeError.
Proof.
  apply (diagnostics_before_fit_raise_AttributeError fresh_session [1] 0 1 1
           100).
  reflexivity.
Defined.

(** X2. When the minimizer reports success the call returns its status
    code and stores its result in place of whatever was stored before:
    afterwards the estimators, the deviance and the number of degrees of
    freedom are those of the new result. *)
Theorem successful_fit_stores_result_and_returns_status
    (minimize : Minimizer) (self : LikelihoodFit.t np.ndarray)
    (seed : np.ndarray) (r : OptimizeResult.t np.ndarray) :
  minimize self.(LikelihoodFit.cost_function) seed = Ok r →
  r.(OptimizeResult.success) = true →
  (LikelihoodFit.__call__ minimize self seed).2 =
    Ok r.(OptimizeResult.status) ∧
  LikelihoodFit.get_minimize_result
    (LikelihoodFit.__call__ minimize self seed).1 = Ok r ∧
  LikelihoodFit.get_estimators (LikelihoodFit.__call__ minimize self seed).1 =
    Ok r.(OptimizeResult.x) ∧
  LikelihoodFit.get_deviance (LikelihoodFit.__call__ minimize self seed).1 =
    Ok r.(OptimizeResult.fun_) ∧
  LikelihoodFit.get_ndof (LikelihoodFit.__call__ minimize self seed).1 =
    Ok (Z.of_nat (length self.(LikelihoodFit.x)) -
        Z.of_nat (length r.(OptimizeResult.x)))%Z.
Proof.
  intros Hmin Hok. unfold LikelihoodFit.__call__. rewrite Hmin, Hok.
  cbn. auto.
Qed.

Lemma successful_fit_stores_result_and_returns_status_witness :
  (LikelihoodFit.__call__ succeeding_minimizer fitted_session [1; 1]).2 =
    Ok 0%Z ∧
  LikelihoodFit.get_minimize_result
    (LikelihoodFit.__call__ succeeding_minimizer fitted_session [1; 1]).1 =
    Ok (OptimizeResult.mk [2; 1] 0 true 0%Z [[1; -1]; [-1; 2]]) ∧
  LikelihoodFit.get_estimators
    (LikelihoodFit.__call__ succeeding_minimizer fitted_session [1; 1]).1 =
    Ok [2; 1] ∧
  LikelihoodFit.get_deviance
    (LikelihoodFit.__call__ succeeding_minimizer fitted_session [1; 1]).1 =
    Ok 0 ∧
  LikelihoodFit.get_ndof
    (LikelihoodFit.__call__ succeeding_minimizer fitted_session [1; 1]).1 =
    Ok (3 - 2)%Z.
Proof.
  apply (successful_fit_stores_result_and_returns_status succeeding_minimizer
           fitted_session [1; 1]
           (OptimizeResult.mk [2; 1] 0 true 0%Z [[1; -1]; [-1; 2]]));
    reflexivity.
Defined.

(** ** Errors and correlations *)

Lemma nth_zip_with {A B C : Type} (f : A → B → C) (a : list A) (b : list B)
    (i : nat) (da : A) (db : B) (dc : C) :
  (i < length a)%nat → (i < length b)%nat →
  nth i (zip_with f a b) dc = f (nth i a da) (nth i b db).
Proof.
  revert b i. induction a as [|u a IH]; intros [|v b] i Ha Hb;
    cbn in *; try lia.
  destruct i as [|i]; [reflexivity|]. apply IH; lia.
Qed.

Lemma nth_map_any {A B : Type} (f : A → B) (l : list A) (i : nat) (d : A)
    (e : B) :
  (i < length l)%nat → nth i (map f l) e = f (nth i l d).
Proof.
  intros Hi. rewrite (nth_indep _ e (f d)) by (by rewrite length_map).
  apply map_nth.
Qed.

(** The diagonal of an array whose row [i] reaches column [k + i]. *)
Lemma diagonal_from_entries (m : np.matrix) (k : nat) :
  (∀ i, (i < length m)%nat → (k + i < length (nth i m []))%nat) →
  np.diagonal_from k m =
  map (fun i => np.entry m i (k + i)) (seq 0 (length m)).
Proof.
  revert k. induction m as [|row m IH]; intros k Hrows; [reflexivity|].
  cbn [np.diagonal_from length seq map].
  pose proof (Hrows 0%nat ltac:(cbn; lia)) as H0. cbn [nth] in H0.
  rewrite Nat.add_0_r in H0.
  destruct (lookup_lt_is_Some_2 row k H0) as [v Hv]. rewrite Hv.
  f_equal.
  - unfold np.entry. cbn [nth]. rewrite Nat.add_0_r.
    by rewrite (nth_lookup_Some _ _ _ _ Hv).
  - rewrite IH.
    + rewrite <- seq_shift, map_map. apply map_ext. intros i.
      unfold np.entry. cbn [nth]. f_equal. lia.
    + intros i Hi. specialize (Hrows (S i) ltac:(cbn; lia)).
      cbn [nth] in Hrows. lia.
Qed.

Lemma diagonal_square (m : np.matrix) (n : nat) :
  np.shape m = Some (n, n) →
  np.diagonal m = map (fun i => np.entry m i i) (seq 0 n).
Proof.
  intros Hm. apply shape_rows in Hm as [Hlen Hrows].
  unfold np.diagonal. rewrite diagonal_from_entries, Hlen; [reflexivity|].
  intros i Hi. rewrite Hrows by lia. lia.
Qed.

Lemma shape_scale (c : R) (m : np.matrix) (n k : nat) :
  np.shape m = Some (n, k) → np.shape (np.scale c m) = Some (n, k).
Proof.
  unfold np.shape, np.scale. destruct m as [|row rest]; [discriminate|].
  cbn [map]. rewrite !length_map.
  destruct (forallb _ rest) eqn:Hall; [|discriminate].
  intros [= <- <-]. cbn [length]. rewrite length_map.
  rewrite forallb_forall in Hall.
  rewrite (proj2 (forallb_forall _ _)); [reflexivity|].
  intros row' Hin. apply in_map_iff in Hin as (r0 & <- & Hin).
  rewrite length_map. by apply Hall.
Qed.

Lemma entry_scale (c : R) (m : np.matrix) (i j : nat) :
  np.entry (np.scale c m) i j = c * np.entry m i j.
Proof.
  unfold np.entry, np.scale.
  destruct (decide (i < length m)%nat) as [Hi|Hi].
  - rewrite (nth_map_any _ _ _ []) by done.
    apply (nth_map_default (Rmult c)). lra.
  - rewrite !(nth_overflow _ []) by (rewrite ?length_map; lia).
    destruct j; cbn; lra.
Qed.



Lemma collect_map_Ok {A : Type} (l : list A) :
  np.collect (map Ok l) = Ok l.
Proof. induction l as [|a l IH]; [reflexivity|]. cbn. by rewrite IH. Qed.

Lemma broadcast2_same_shape (f : R → R → R) (a b : np.matrix) (n k : nat) :
  np.shape a = Some (n, k) → np.shape b = Some (n, k) →
  np.broadcast2 f a b = Ok (zip_with (zip_with f) a b).
Proof.
  intros Ha Hb. apply shape_rows in Ha as [Hla Hra], Hb as [Hlb Hrb].
  unfold np.broadcast2. rewrite broadcast_same_length by lia.
  rewrite <- collect_map_Ok. f_equal.
  subst n. revert b Hlb Hra Hrb.
  induction a as [|ra a IH]; intros [|rb b] Hlb Hra Hrb; cbn in Hlb;
    try lia; [reflexivity|].
  cbn [zip_with map]. f_equal.
  - apply broadcast_same_length.
    pose proof (Hra 0%nat ltac:(cbn; lia)) as H1.
    pose proof (Hrb 0%nat ltac:(cbn; lia)) as H2.
    cbn [nth] in H1, H2. lia.
  - apply IH; [lia| |].
    + intros i Hi. apply (Hra (S i)). cbn. lia.
    + intros i Hi. apply (Hrb (S i)). cbn in *. lia.
Qed.

Lemma shape_tensordot0 (u v : np.ndarray) :
  u ≠ [] → np.shape (np.tensordot0 u v) = Some (length u, length v).
Proof.
  destruct u as [|a u]; [done|]. intros _.
  unfold np.shape, np.tensordot0. cbn [map].
  rewrite (proj2 (forallb_forall _ _)).
  - cbn [length]. by rewrite !length_map.
  - intros row Hin. apply in_map_iff in Hin as (b & <- & _).
    rewrite !length_map. by apply bool_decide_eq_true.
Qed.

Lemma entry_tensordot0 (u v : np.ndarray) (i j : nat) :
  (i < length u)%nat → (j < length v)%nat →
  np.entry (np.tensordot0 u v) i j = nth i u 0 * nth j v 0.
Proof.
  intros Hi Hj. unfold np.entry, np.tensordot0.
  rewrite (nth_map_any _ _ _ 0) by done.
  by rewrite (nth_map_any _ _ _ 0) by done.
Qed.

Lemma entry_zip_with (f : R → R → R) (a b : np.matrix) (n k i j : nat) :
  np.shape a = Some (n, k) → np.shape b = Some (n, k) →
  (i < n)%nat → (j < k)%nat →
  np.entry (zip_with (zip_with f) a b) i j = f (np.entry a i j) (np.entry b i j).
Proof.
  intros Ha Hb Hi Hj. apply shape_rows in Ha as [Hla Hra], Hb as [Hlb Hrb].
  unfold np.entry.
  rewrite (nth_zip_with _ _ _ _ [] []) by lia.
  apply nth_zip_with; rewrite ?Hra, ?Hrb; lia.
Qed.

(** X4. For an [n] by [n] inverse curvature, [get_correlation_matrix]
    returns the [n] by [n] matrix of [covariance[i][j] / (error[i] *
    error[j])].  Its diagonal entry [i] is exactly 1 when [hess_inv[i][i]]
    is positive, and it is symmetric when [hess_inv] is. *)
Theorem get_correlation_matrix_of_square_hess_inv
    (self : LikelihoodFit.t np.ndarray) (r : OptimizeResult.t np.ndarray)
    (n : nat) :
  LikelihoodFit.get_minimize_result self = Ok r →
  np.shape r.(OptimizeResult.hess_inv) = Some (n, n) →
  ∃ correlation,
    LikelihoodFit.get_correlation_matrix self = Ok correlation ∧
    length correlation = n ∧
    (∀ i j, (i < n)%nat → (j < n)%nat →
       np.entry correlation i j =
       2 * np.entry r.(OptimizeResult.hess_inv) i j /
       (sqrt (2 * np.entry r.(OptimizeResult.hess_inv) i i) *
        sqrt (2 * np.entry r.(OptimizeResult.hess_inv) j j))) ∧
    (∀ i, (i < n)%nat → 0 < np.entry r.(OptimizeResult.hess_inv) i i →
       np.entry correlation i i = 1) ∧
    ((∀ i j, (i < n)%nat → (j < n)%nat →
        np.entry r.(OptimizeResult.hess_inv) i j =
        np.entry r.(OptimizeResult.hess_inv) j i) →
     ∀ i j, (i < n)%nat → (j < n)%nat →
       np.entry correlation i j = np.entry correlation j i).
Proof.
  intros Hr Hshape.
  set (h := r.(OptimizeResult.hess_inv)) in *.
  assert (Hn : (0 < n)%nat).
  { unfold np.shape in Hshape. destruct h as [|row rest]; [discriminate|].
    destruct (forallb _ rest); [|discriminate].
    injection Hshape as <- _. cbn. lia. }
  pose proof (shape_scale 2 h n n Hshape) as Hcov.
  unfold LikelihoodFit.get_correlation_matrix, LikelihoodFit.get_errors,
    LikelihoodFit.get_covariance_matrix.
  rewrite Hr. cbn [mbind result_bind]. fold h.
  rewrite (diagonal_square _ n) by done.
  set (errors := np.sqrt (map (fun i => np.entry (np.scale 2 h) i i) (seq 0 n))).
  assert (Hlen : length errors = n).
  { unfold errors, np.sqrt. by rewrite !length_map, length_seq. }
  assert (Herr : ∀ i, (i < n)%nat →
            nth i errors 0 = sqrt (2 * np.entry h i i)).
  { intros i Hi. unfold errors, np.sqrt. rewrite map_map.
    rewrite (nth_map_any _ _ _ 0%nat) by (rewrite length_seq; lia).
    rewrite seq_nth by lia. cbn [Nat.add]. by rewrite entry_scale. }
  assert (Houter : np.shape (np.tensordot0 errors errors) = Some (n, n)).
  { rewrite shape_tensordot0, Hlen; [reflexivity|].
    intros ->. cbn in Hlen. lia. }
  rewrite (broadcast2_same_shape _ _ _ n n) by done.
  cbn [mbind result_bind]. eexists. split; [reflexivity|].
  assert (Hentry : ∀ i j, (i < n)%nat → (j < n)%nat →
    np.entry (zip_with (zip_with Rdiv) (np.scale 2 h)
                (np.tensordot0 errors errors)) i j =
    2 * np.entry h i j /
    (sqrt (2 * np.entry h i i) * sqrt (2 * np.entry h j j))).
  { intros i j Hi Hj. rewrite (entry_zip_with _ _ _ n n) by done.
    rewrite entry_scale, entry_tensordot0 by lia.
    by rewrite !Herr. }
  split; [|split; [exact Hentry|split]].
  - rewrite length_zip_with.
    apply shape_rows in Hcov as [-> _], Houter as [-> _]. lia.
  - intros i Hi Hpos. rewrite Hentry by done.
    rewrite sqrt_sqrt by lra. field. lra.
  - intros Hsym i j Hi Hj. rewrite !Hentry by done.
    rewrite (Hsym i j) by done. f_equal. ring.
Qed.

Lemma get_correlation_matrix_of_square_hess_inv_witness :
  ∃ correlation,
    LikelihoodFit.get_correlation_matrix fitted_session = Ok correlation ∧
    length correlation = 2%nat ∧
    (∀ i j, (i < 2)%nat → (j < 2)%nat →
       np.entry correlation i j =
       2 * np.entry [[1; -1]; [-1; 2]] i j /
       (sqrt (2 * np.entry [[1; -1]; [-1; 2]] i i) *
        sqrt (2 * np.entry [[1; -1]; [-1; 2]] j j))) ∧
    (∀ i, (i < 2)%nat → 0 < np.entry [[1; -1]; [-1; 2]] i i →
       np.entry correlation i i = 1) ∧
    ((∀ i j, (i < 2)%nat → (j < 2)%nat →
        np.entry [[1; -1]; [-1; 2]] i j = np.entry [[1; -1]; [-1; 2]] j i) →
     ∀ i j, (i < 2)%nat → (j < 2)%nat →
       np.entry correlation i j = np.entry correlation j i).
Proof.
  apply (get_correlation_matrix_of_square_hess_inv fitted_session
           (OptimizeResult.mk [2; 1] 0 true 0%Z [[1; -1]; [-1; 2]]) 2);
    reflexivity.
Defined.

(** ** LeastSquares: shapes, sign and scaling of the cost *)

Lemma broadcast_mismatch {A B C : Type} (f : A → B → C) (a : list A)
    (b : list B) :
  length a ≠ length b → length a ≠ 1%nat → length b ≠ 1%nat →
  np.broadcast f a b = Raise ValueError.
Proof.
  intros Hab Ha Hb. unfold np.broadcast. rewrite decide_False by done.
  destruct a as [|a0 [|a1 a]]; cbn in Ha; try lia;
    destruct b as [|b0 [|b1 b]]; cbn in Hb; try lia; reflexivity.
Qed.

Lemma broadcast_scalar_right {A B C : Type} (f : A → B → C) (a : list A)
    (b0 : B) :
  np.broadcast f a [b0] = Ok (map (fun ai => f ai b0) a).
Proof.
  unfold np.broadcast. destruct (decide (length a = length [b0])) as [Hl|Hl].
  - destruct a as [|a0 [|a1 a]]; cbn in Hl; try lia. reflexivity.
  - destruct a as [|a0 [|a1 a]]; cbn in Hl; try lia; reflexivity.
Qed.

(** X5. When the model output and the data, or the sigmas and the data,
    have different lengths and neither is of length one, the cost raises
    [ValueError]: the arrays cannot be broadcast together. *)
Theorem LeastSquares_cost_raises_on_shape_mismatch
    (x y ysigma : np.ndarray) (model : Model) (par : np.ndarray) :
  (length (model x par) ≠ length y ∧
   length (model x par) ≠ 1%nat ∧ length y ≠ 1%nat) ∨
  (length (model x par) = length y ∧
   length ysigma ≠ length y ∧ length ysigma ≠ 1%nat ∧ length y ≠ 1%nat) →
  LeastSquares.cost_function x y ysigma model par = Raise ValueError.
Proof.
  unfold LeastSquares.cost_function, np.subtract, np.divide.
  intros [(Hne & Hmu & Hy)|(Heq & Hne & Hsig & Hy)].
  - rewrite broadcast_mismatch by (try done; lia). reflexivity.
  - rewrite broadcast_same_length by done. cbn [mbind result_bind].
    rewrite broadcast_mismatch; [reflexivity| | |done];
      rewrite length_zip_with; lia.
Qed.

Lemma LeastSquares_cost_raises_on_shape_mismatch_witness :
  LeastSquares.cost_function [0; 1; 2] [1; 3; 5] [1; 1] line_model [2; 1] =
  Raise ValueError.
Proof.
  apply (LeastSquares_cost_raises_on_shape_mismatch
           [0; 1; 2] [1; 3; 5] [1; 1] line_model [2; 1]).
  right. cbn. lia.
Defined.

(** X6. A single sigma is applied to every data point: with [ysigma] of
    length one the cost is the sum of [((y_i - mu_i) / sigma)^2]. *)
Theorem LeastSquares_cost_with_one_sigma
    (x y : np.ndarray) (sigma : R) (model : Model) (par : np.ndarray) :
  length (model x par) = length y →
  LeastSquares.cost_function x y [sigma] model par =
  Ok (Num (big_sum (length y) (fun i =>
             ((nth i y 0 - nth i (model x par) 0) / sigma) ^ 2))).
Proof.
  intros Hmu. unfold LeastSquares.cost_function, np.subtract, np.divide.
  rewrite broadcast_same_length by done. cbn [mbind result_bind].
  rewrite broadcast_scalar_right. cbn [mbind result_bind]. do 2 f_equal.
  rewrite np_sum_big_sum. unfold np.power.
  rewrite !length_map, length_zip_with, Hmu, Nat.min_id.
  apply big_sum_ext. intros i Hi. rewrite map_map.
  rewrite (nth_map_any _ _ _ 0) by (rewrite length_zip_with; lia).
  by rewrite nth_zip_with_R by lia.
Qed.

Lemma LeastSquares_cost_with_one_sigma_witness :
  LeastSquares.cost_function [0; 1; 2] [1; 3; 6] [2] line_model [2; 1] =
  Ok (Num (big_sum 3 (fun i =>
             ((nth i [1; 3; 6] 0 - nth i (line_model [0; 1; 2] [2; 1]) 0)
              / 2) ^ 2))).
Proof.
  apply (LeastSquares_cost_with_one_sigma [0; 1; 2] [1; 3; 6] 2 line_model
           [2; 1]).
  reflexivity.
Defined.





(** X8. Multiplying every sigma by [k] divides the cost by [k^2]. *)
Theorem LeastSquares_cost_scales_with_sigma
    (x y ysigma : np.ndarray) (model : Model) (par : np.ndarray) (k : R) :
  length (model x par) = length y →
  length ysigma = length y →
  k ≠ 0 →
  Forall (fun s => s ≠ 0) ysigma →
  ∃ c, LeastSquares.cost_function x y ysigma model par = Ok (Num c) ∧
       LeastSquares.cost_function x y (map (Rmult k) ysigma) model par =
       Ok (Num (c / k ^ 2)).
Proof.
  intros Hmu Hsig Hk Hnz.
  rewrite !LeastSquares_cost_equal_lengths by (rewrite ?length_map; done).
  eexists. split; [reflexivity|]. do 2 f_equal.
  generalize (zip_with Rminus y (model x par)) as d. clear -Hk Hnz.
  unfold np.sum, np.power.
  induction Hnz as [|s ysigma Hs _ IH]; intros [|u d]; cbn [map zip_with foldr];
    try (field; done).
  rewrite IH. field. done.
Qed.

Lemma LeastSquares_cost_scales_with_sigma_witness :
  ∃ c, LeastSquares.cost_function [0; 1; 2] [1; 3; 6] [1; 1; 2] line_model
         [2; 1] = Ok (Num c) ∧
       LeastSquares.cost_function [0; 1; 2] [1; 3; 6]
         (map (Rmult 3) [1; 1; 2]) line_model [2; 1] = Ok (Num (c / 3 ^ 2)).
Proof.
  apply (LeastSquares_cost_scales_with_sigma
           [0; 1; 2] [1; 3; 6] [1; 1; 2] line_model [2; 1] 3);
    try reflexivity; [lra|].
  repeat constructor; lra.
Defined.

(** ** Poisson: shapes, masked points and sign of the deviance *)

(** X9. When the model output and the data have different lengths and
    the data are not a single point, the cost raises [MaskError]: the
    zero-count mask does not fit the model output. *)
Theorem Poisson_cost_raises_on_shape_mismatch
    (x y : np.ndarray) (model : Model) (par : np.ndarray) :
  length (model x par) ≠ length y →
  length y ≠ 1%nat →
  Poisson.cost_function x y model par = Raise MaskError.
Proof.
  intros Hne Hy. unfold Poisson.cost_function.
  rewrite (ma_array_same_length y)
    by (unfold np.equal; by rewrite length_map).
  cbn [mbind result_bind].
  assert (Hmu1 : ma.array (model x par) (np.equal y 0) = Raise MaskError).
  { unfold ma.array, np.equal.
    rewrite decide_False by (rewrite length_map; lia).
    destruct y as [|v0 [|v1 y]]; cbn in Hy; try lia; reflexivity. }
  by rewrite Hmu1.
Qed.

Lemma Poisson_cost_raises_on_shape_mismatch_witness :
  Poisson.cost_function [1; 2; 3] [0; 3] line_model [2; 0] = Raise MaskError.
Proof.
  apply (Poisson_cost_raises_on_shape_mismatch [1; 2; 3] [0; 3] line_model
           [2; 0]); cbn; lia.
Defined.

Lemma ma_sum_masked_iff (a : ma.MaskedArray) :
  ma.sum a = Masked ↔ Forall (fun u => u = None) a.
Proof.
  split; [|apply ma_sum_all_masked].
  intros Hsum. apply Forall_forall. intros [v|] Hin; [|reflexivity].
  rewrite (ma_sum_not_all_masked a v Hin) in Hsum. discriminate.
Qed.

Lemma ma_sum_number (a : ma.MaskedArray) (s : R) :
  ma.sum a = Num s → s = np.sum (map (default 0) a).
Proof.
  unfold ma.sum. destruct (forallb _ a); [discriminate|]. by intros [= <-].
Qed.

Lemma cost_array2_all_masked (y mu : np.ndarray) :
  length mu = length y →
  Forall (fun u => u = None) (zip_with cost_array2_at y mu) ↔
  Forall (fun v => v ≠ 0) y.
Proof.
  revert mu. induction y as [|v y IH]; intros [|m mu] Hlen; simplify_eq/=.
  - split; constructor.
  - rewrite !Forall_cons, IH by done. unfold cost_array2_at.
    destruct (decide (v = 0)); split; intros [? ?]; split; done.
Qed.

Lemma cost_array1_all_masked (y mu : np.ndarray) :
  length mu = length y →
  Forall (fun u => u = None) (zip_with cost_array1_at y mu) ↔
  Forall2 (fun v m => v = 0 ∨ m / v <= 0) y mu.
Proof.
  revert mu. induction y as [|v y IH]; intros [|m mu] Hlen; simplify_eq/=.
  - split; constructor.
  - rewrite Forall_cons, Forall2_cons, IH by done. unfold cost_array1_at.
    destruct (decide (v = 0)); [tauto|].
    destruct (decide (m / v <= 0)); [tauto|].
    split; intros [H ?]; [discriminate|]. destruct H; done.
Qed.

Lemma sum_of_computed_terms (y mu : np.ndarray) :
  np.sum (map (default 0) (zip_with cost_array1_at y mu)) +
  np.sum (map (default 0) (zip_with cost_array2_at y mu)) =
  np.sum (zip_with computed_term y mu).
Proof.
  unfold np.sum. revert mu.
  induction y as [|v y IH]; intros [|m mu]; cbn [zip_with map foldr];
    try lra.
  rewrite <- IH.
  generalize (foldr Rplus 0 (map (default 0) (zip_with cost_array1_at y mu)))
    as s1.
  generalize (foldr Rplus 0 (map (default 0) (zip_with cost_array2_at y mu)))
    as s2.
  intros s2 s1. unfold cost_array1_at, cost_array2_at, computed_term.
  destruct (decide (v = 0)); [|destruct (decide (m / v <= 0))];
    unfold default, from_option, Datatypes.id; lra.
Qed.

(** X10. On data and model output of one length the Poisson cost never
    raises.  It is the constant [masked] exactly when no count is zero or
    when every point has a zero count or a ratio [mu/y] that is not
    positive; otherwise it is the sum over the points of [2*mu] for a zero
    count, of the deviance term for a positive ratio, and of nothing for a
    point whose ratio is not positive: such a point is dropped, not
    reported. *)
Theorem Poisson_cost_on_matching_lengths
    (x y : np.ndarray) (model : Model) (par : np.ndarray) :
  length (model x par) = length y →
  ∃ c, Poisson.cost_function x y model par = Ok c ∧
       (c = Masked ↔
        Forall (fun v => v ≠ 0) y ∨
        Forall2 (fun v m => v = 0 ∨ m / v <= 0) y (model x par)) ∧
       ∀ s, c = Num s →
         s = big_sum (length y) (fun i =>
               computed_term (nth i y 0) (nth i (model x par) 0)).
Proof.
  intros Hlen. rewrite Poisson_cost_pointwise by done.
  eexists. split; [reflexivity|].
  generalize dependent (model x par). intros mu Hlen.
  pose proof (ma_sum_masked_iff (zip_with cost_array1_at y mu)) as H1.
  pose proof (ma_sum_masked_iff (zip_with cost_array2_at y mu)) as H2.
  rewrite cost_array1_all_masked in H1 by done.
  rewrite cost_array2_all_masked in H2 by done.
  pose proof (ma_sum_number (zip_with cost_array1_at y mu)) as N1.
  pose proof (ma_sum_number (zip_with cost_array2_at y mu)) as N2.
  destruct (ma.sum (zip_with cost_array1_at y mu)) as [s1|];
    destruct (ma.sum (zip_with cost_array2_at y mu)) as [s2|];
    cbn [scalar_add]; (split; [|intros s Hs; try discriminate]).
  - split; [discriminate|].
    intros [H|H]; [by apply H2 in H | by apply H1 in H].
  - injection Hs as <-. rewrite (N1 s1), (N2 s2) by reflexivity.
    rewrite sum_of_computed_terms, np_sum_big_sum, length_zip_with, Hlen,
      Nat.min_id.
    apply big_sum_ext. intros i Hi. apply nth_zip_with_R; lia.
  - split; [intros _|reflexivity]. left. by apply H2.
  - split; [intros _|reflexivity]. right. by apply H1.
  - split; [intros _|reflexivity]. left. by apply H2.
Qed.

Lemma Poisson_cost_on_matching_lengths_witness :
  ∃ c, Poisson.cost_function [1; 2] [0; 3] line_model [2; 0] = Ok c ∧
       (c = Masked ↔
        Forall (fun v => v ≠ 0) [0; 3] ∨
        Forall2 (fun v m => v = 0 ∨ m / v <= 0) [0; 3]
          (line_model [1; 2] [2; 0])) ∧
       ∀ s, c = Num s →
         s = big_sum 2 (fun i =>
               computed_term (nth i [0; 3] 0)
                 (nth i (line_model [1; 2] [2; 0]) 0)).
Proof.
  apply (Poisson_cost_on_matching_lengths [1; 2] [0; 3] line_model [2; 0]).
  reflexivity.
Defined.

Lemma sum_zip_with_big_sum (f : R → R → R) (y mu : np.ndarray) :
  length mu = length y →
  np.sum (zip_with f y mu) =
  big_sum (length y) (fun i => f (nth i y 0) (nth i mu 0)).
Proof.
  intros Hlen. rewrite np_sum_big_sum, length_zip_with, Hlen, Nat.min_id.
  apply big_sum_ext. intros i Hi. apply nth_zip_with_R; lia.
Qed.

Lemma ln_le_minus_1 (t : R) : 0 < t → ln t <= t - 1.
Proof.
  intros Ht. pose proof (exp_ineq1_le (ln t)) as H.
  rewrite exp_ln in H by done. lra.
Qed.

Lemma deviance_term_nonneg (v m : R) :
  0 <= v → 0 <= m → (0 < v → 0 < m) → 0 <= Poisson.deviance_term v m.
Proof.
  intros Hv Hm Hpos. unfold Poisson.deviance_term.
  destruct (decide (v = 0)) as [->|Hv0]; [lra|].
  assert (Hv' : 0 < v) by lra. specialize (Hpos Hv').
  pose proof (ln_le_minus_1 (m / v) (Rdiv_lt_0_compat _ _ Hpos Hv')) as Hln.
  assert (Hmul : v * ln (m / v) <= v * (m / v - 1))
    by (apply Rmult_le_compat_l; lra).
  replace (v * (m / v - 1)) with (m - v) in Hmul by (field; lra). lra.
Qed.

Lemma deviance_term_at_data (v : R) : Poisson.deviance_term v v = 0.
Proof.
  unfold Poisson.deviance_term. destruct (decide (v = 0)) as [->|Hv0]; [lra|].
  replace (v / v) with 1 by (field; done). rewrite ln_1. lra.
Qed.

(** X11. For counts that are not negative, of which one at least is zero
    and one at least is not, and model values that are not negative and are
    positive wherever the count is, the Poisson cost is a number that is
    never negative, and it is zero when the model reproduces the counts. *)
Theorem Poisson_cost_nonnegative_and_zero_at_data
    (x y : np.ndarray) (model : Model) (par : np.ndarray) :
  Forall2 (fun v m => 0 <= v ∧ 0 <= m ∧ (0 < v → 0 < m)) y (model x par) →
  0 ∈ y →
  (∃ v, v ∈ y ∧ v ≠ 0) →
  ∃ c, Poisson.cost_function x y model par = Ok (Num c) ∧
       0 <= c ∧
       (model x par = y → c = 0).
Proof.
  intros Hy Hzero Hnonzero.
  pose proof (Forall2_length _ _ _ Hy) as Hlen.
  rewrite Poisson_cost_with_both_kinds_of_counts; [|by eapply Forall2_impl;
    [exact Hy|intros ? ? (? & ? & ?)]|done|done].
  eexists. split; [reflexivity|].
  rewrite <- sum_zip_with_big_sum by done.
  generalize dependent (model x par). intros mu Hy _.
  clear Hzero Hnonzero. unfold np.sum. split.
  - induction Hy as [|v m y mu (Hv & Hm & Hpos) _ IH];
      cbn [zip_with foldr]; [lra|].
    pose proof (deviance_term_nonneg v m Hv Hm Hpos). lra.
  - intros ->. clear Hy.
    induction y as [|v y IH]; cbn [zip_with foldr]; [reflexivity|].
    rewrite deviance_term_at_data, IH. lra.
Qed.

Lemma Poisson_cost_nonnegative_and_zero_at_data_witness :
  ∃ c, Poisson.cost_function [1; 2] [0; 3] line_model [2; 0] = Ok (Num c) ∧
       0 <= c ∧
       (line_model [1; 2] [2; 0] = [0; 3] → c = 0).
Proof.
  apply (Poisson_cost_nonnegative_and_zero_at_data [1; 2] [0; 3] line_model
           [2; 0]).
  - repeat constructor; cbn; lra.
  - left.
  - exists 3. split; [right; left | lra].
Defined.

(** ** The confidence ellipse: failure, closure and contour *)

Lemma cholesky_not_positive_definite (a b c d : R) :
  a <= 0 ∨ a * d - c * c <= 0 →
  np.cholesky [[a; b]; [c; d]] = Raise LinAlgError.
Proof.
  intros Hbad.
  unfold np.cholesky. destruct (decide (0 < a)) as [Ha|Ha]; [|reflexivity].
  rewrite decide_False; [reflexivity|].
  destruct Hbad as [Hbad|Hbad]; [lra|].
  assert (Hs : 0 < sqrt a) by (by apply sqrt_lt_R0).
  replace (c / sqrt a * (c / sqrt a)) with (c * c / a).
  - intros Hpos. apply (Rmult_lt_compat_l a) in Hpos; [|done].
    replace (a * (d - c * c / a)) with (a * d - c * c) in Hpos
      by (field; lra).
    lra.
  - rewrite <- (sqrt_sqrt a) at 1 by lra. field. lra.
Qed.

(** X12. A 2 by 2 matrix whose first entry is not positive, or whose
    determinant read from its lower triangle is not positive, is refused
    with [LinAlgError], whatever the centre, the scale and the number of
    points. *)
Theorem get_confidence_ellipse_refuses_non_positive_definite
    (center : np.ndarray) (a b c d nsigma : R) (npoints : nat) :
  a <= 0 ∨ a * d - c * c <= 0 →
  get_confidence_ellipse center [[a; b]; [c; d]] nsigma npoints =
  Raise LinAlgError.
Proof.
  intros Hbad. unfold get_confidence_ellipse.
  by rewrite cholesky_not_positive_definite.
Qed.

Lemma get_confidence_ellipse_refuses_non_positive_definite_witness :
  get_confidence_ellipse [0; 0] [[1; 2]; [2; 4]] 1 100 = Raise LinAlgError.
Proof.
  apply (get_confidence_ellipse_refuses_non_positive_definite
           [0; 0] 1 2 2 4 1 100).
  right. lra.
Defined.

(** The value of the function on a positive-definite symmetric matrix. *)
Lemma get_confidence_ellipse_value (c0 c1 a b d nsigma : R) (npoints : nat) :
  0 < a → 0 < a * d - b * b →
  get_confidence_ellipse [c0; c1] [[a; b]; [b; d]] nsigma npoints =
  Ok [map (fun tk => nsigma * (sqrt a * cos tk) + c0)
        (np.linspace 0 (2 * PI) npoints);
      map (fun tk => nsigma * (b / sqrt a * cos tk +
                     sqrt (d - b / sqrt a * (b / sqrt a)) * sin tk) + c1)
        (np.linspace 0 (2 * PI) npoints)].
Proof.
  intros Ha Hdet.
  destruct (cholesky_positive_definite a b d Ha Hdet) as [Hchol _].
  unfold get_confidence_ellipse. rewrite Hchol. cbn [mbind result_bind].
  unfold np.column_stack, np.cos, np.sin.
  rewrite decide_True by (rewrite !length_map; reflexivity).
  cbn [mbind result_bind]. rewrite zip_with_map_map.
  unfold np.add_rows. rewrite decide_True by reflexivity.
  cbn [mbind result_bind].
  unfold np.transpose, np.matmul, np.scale. cbn [seq map].
  rewrite !map_map. unfold np.entry, np.sum.
  cbn [map nth zip_with foldr].
  do 2 f_equal; [|f_equal]; apply map_ext; intros tk; ring.
Qed.

(** X13. For a positive-definite symmetric covariance and at least two
    points, the function returns two rows of [npoints] coordinates each,
    and the curve is closed: the last point is the first one,
    [center + nsigma * (sqrt a, b / sqrt a)]. *)
Theorem get_confidence_ellipse_is_closed
    (c0 c1 a b d nsigma : R) (npoints : nat) :
  0 < a → 0 < a * d - b * b → (2 <= npoints)%nat →
  ∃ xs ys,
    get_confidence_ellipse [c0; c1] [[a; b]; [b; d]] nsigma npoints =
      Ok [xs; ys] ∧
    length xs = npoints ∧ length ys = npoints ∧
    nth 0 xs 0 = c0 + nsigma * sqrt a ∧
    nth 0 ys 0 = c1 + nsigma * (b / sqrt a) ∧
    nth (npoints - 1) xs 0 = nth 0 xs 0 ∧
    nth (npoints - 1) ys 0 = nth 0 ys 0.
Proof.
  intros Ha Hdet Hn. eexists _, _.
  split; [by apply get_confidence_ellipse_value|].
  rewrite !length_map, linspace_length. split; [reflexivity|].
  split; [reflexivity|].
  assert (H0 : nth 0 (np.linspace 0 (2 * PI) npoints) 0 = 0).
  { rewrite linspace_nth by lia. cbn [INR]. lra. }
  assert (Hlast : nth (npoints - 1) (np.linspace 0 (2 * PI) npoints) 0 =
                  2 * PI).
  { rewrite linspace_nth by lia. field. apply not_0_INR. lia. }
  rewrite !(nth_map_any _ _ _ 0) by (rewrite linspace_length; lia).
  rewrite H0, Hlast, cos_0, sin_0, cos_2PI, sin_2PI.
  repeat split; ring.
Qed.

Lemma get_confidence_ellipse_is_closed_witness :
  ∃ xs ys,
    get_confidence_ellipse [1; -1] [[4; 2]; [2; 5]] 2 100 = Ok [xs; ys] ∧
    length xs = 100%nat ∧ length ys = 100%nat ∧
    nth 0 xs 0 = 1 + 2 * sqrt 4 ∧
    nth 0 ys 0 = -1 + 2 * (2 / sqrt 4) ∧
    nth (100 - 1) xs 0 = nth 0 xs 0 ∧
    nth (100 - 1) ys 0 = nth 0 ys 0.
Proof.
  apply (get_confidence_ellipse_is_closed 1 (-1) 4 2 5 2 100); [lra|lra|lia].
Defined.

(** X14. Every returned point [p] lies on the [nsigma] contour of the
    covariance: [(p - center)^T * cova^(-1) * (p - center) = nsigma^2],
    written without the inverse as
    [d*u^2 - 2*b*u*v + a*v^2 = nsigma^2 * (a*d - b^2)] for
    [(u, v) = p - center]. *)
Theorem get_confidence_ellipse_points_on_contour
    (c0 c1 a b d nsigma : R) (npoints : nat) :
  0 < a → 0 < a * d - b * b →
  ∃ xs ys,
    get_confidence_ellipse [c0; c1] [[a; b]; [b; d]] nsigma npoints =
      Ok [xs; ys] ∧
    ∀ k, (k < npoints)%nat →
      d * (nth k xs 0 - c0) ^ 2
      - 2 * b * (nth k xs 0 - c0) * (nth k ys 0 - c1)
      + a * (nth k ys 0 - c1) ^ 2 =
      nsigma ^ 2 * (a * d - b * b).
Proof.
  intros Ha Hdet. eexists _, _.
  split; [by apply get_confidence_ellipse_value|].
  intros k Hk.
  rewrite !(nth_map_any _ _ _ 0) by (rewrite linspace_length; lia).
  set (t := nth k (np.linspace 0 (2 * PI) npoints) 0).
  destruct (cholesky_positive_definite a b d Ha Hdet) as [_ Hpos].
  assert (Hs : 0 < sqrt a) by (by apply sqrt_lt_R0).
  set (l00 := sqrt a) in *. set (l10 := b / l00) in *.
  set (l11 := sqrt (d - l10 * l10)).
  assert (H00 : l00 * l00 = a) by (apply sqrt_sqrt; lra).
  assert (H10 : l10 * l00 = b) by (unfold l10; field; lra).
  assert (H11 : l11 * l11 = d - l10 * l10) by (apply sqrt_sqrt; lra).
  pose proof (sin2_cos2 t) as Hsc. unfold Rsqr in Hsc.
  replace d with (l10 * l10 + l11 * l11) by lra.
  rewrite <- H00, <- H10.
  replace (nsigma ^ 2 *
           (l00 * l00 * (l10 * l10 + l11 * l11) - l10 * l00 * (l10 * l00)))
    with (nsigma ^ 2 * (l00 * l00) * (l11 * l11) *
          (sin t * sin t + cos t * cos t)) by (rewrite Hsc; ring).
  ring.
Qed.

Lemma get_confidence_ellipse_points_on_contour_witness :
  ∃ xs ys,
    get_confidence_ellipse [1; -1] [[4; 2]; [2; 5]] 2 100 = Ok [xs; ys] ∧
    ∀ k, (k < 100)%nat →
      5 * (nth k xs 0 - 1) ^ 2
      - 2 * 2 * (nth k xs 0 - 1) * (nth k ys 0 - -1)
      + 4 * (nth k ys 0 - -1) ^ 2 =
      2 ^ 2 * (4 * 5 - 2 * 2).
Proof.
  apply (get_confidence_ellipse_points_on_contour 1 (-1) 4 2 5 2 100); lra.
Defined.

(** ** The method get_confidence_ellipse: indices *)

Lemma getitem_at {A : Type} (a : list A) (i : Z) (k : nat) (v : A) :
  py_index (length a) i = Some k → a !! k = Some v → getitem a i = Ok v.
Proof. intros Hk Hv. unfold getitem. rewrite Hk. cbn. by rewrite Hv. Qed.

Lemma getitem_out_of_range {A : Type} (a : list A) (i : Z) :
  py_index (length a) i = None → getitem a i = Raise IndexError.
Proof. intros Hk. unfold getitem. by rewrite Hk. Qed.

Lemma py_index_lt (n : nat) (i : Z) (k : nat) :
  py_index n i = Some k → (k < n)%nat.
Proof.
  unfold py_index. repeat case_decide; intros [= <-]; lia.
Qed.

Lemma lookup_entry (m : np.matrix) (n i j : nat) :
  np.shape m = Some (n, n) → (i < n)%nat → (j < n)%nat →
  ∃ row, m !! i = Some row ∧ length row = n ∧
         row !! j = Some (np.entry m i j).
Proof.
  intros Hm Hi Hj. apply shape_rows in Hm as [Hlen Hrows].
  destruct (lookup_lt_is_Some_2 m i ltac:(lia)) as [row Hrow].
  exists row. split; [done|].
  assert (Hnth : nth i m [] = row) by (by apply nth_lookup_Some).
  specialize (Hrows i Hi). rewrite Hnth in Hrows. split; [done|].
  unfold np.entry. rewrite Hnth.
  destruct (lookup_lt_is_Some_2 row j ltac:(lia)) as [v Hv].
  by rewrite Hv, (nth_lookup_Some _ _ _ _ Hv).
Qed.

(** The method with two indices in range. *)
Lemma get_confidence_ellipse_method_value
    (self : LikelihoodFit.t np.ndarray) (r : OptimizeResult.t np.ndarray)
    (n : nat) (xindex yindex : Z) (kx ky : nat) (nsigma : R) (npoints : nat) :
  LikelihoodFit.get_minimize_result self = Ok r →
  length r.(OptimizeResult.x) = n →
  np.shape r.(OptimizeResult.hess_inv) = Some (n, n) →
  py_index n xindex = Some kx →
  py_index n yindex = Some ky →
  LikelihoodFit.get_confidence_ellipse self xindex yindex nsigma npoints =
  get_confidence_ellipse
    [nth kx r.(OptimizeResult.x) 0; nth ky r.(OptimizeResult.x) 0]
    [[2 * np.entry r.(OptimizeResult.hess_inv) kx kx;
      2 * np.entry r.(OptimizeResult.hess_inv) kx ky];
     [2 * np.entry r.(OptimizeResult.hess_inv) ky kx;
      2 * np.entry r.(OptimizeResult.hess_inv) ky ky]]
    nsigma npoints.
Proof.
  intros Hr Hlen Hshape Hkx Hky.
  pose proof (py_index_lt _ _ _ Hkx) as Hx.
  pose proof (py_index_lt _ _ _ Hky) as Hy.
  pose proof (shape_scale 2 _ n n Hshape) as Hcov.
  unfold LikelihoodFit.get_confidence_ellipse, LikelihoodFit.get_estimators,
    LikelihoodFit.get_covariance_matrix.
  rewrite Hr. cbn [mbind result_bind].
  destruct (lookup_lt_is_Some_2 (OptimizeResult.x r) kx ltac:(lia)) as [ex Hex].
  destruct (lookup_lt_is_Some_2 (OptimizeResult.x r) ky ltac:(lia)) as [ey Hey].
  rewrite (getitem_at _ xindex kx ex) by (by rewrite ?Hlen).
  cbn [mbind result_bind].
  rewrite (getitem_at _ yindex ky ey) by (by rewrite ?Hlen).
  cbn [mbind result_bind].
  destruct (lookup_entry _ n kx kx Hcov Hx Hx) as (rx & Hrx & Hlx & Hxx).
  destruct (lookup_entry _ n kx ky Hcov Hx Hy) as (rx' & Hrx' & _ & Hxy).
  destruct (lookup_entry _ n ky kx Hcov Hy Hx) as (ry & Hry & Hly & Hyx).
  destruct (lookup_entry _ n ky ky Hcov Hy Hy) as (ry' & Hry' & _ & Hyy).
  simplify_eq.
  assert (Hcl : length (np.scale 2 (OptimizeResult.hess_inv r)) =
                length (OptimizeResult.x r)).
  { by apply shape_rows in Hcov as [-> _]. }
  rewrite (getitem_at _ xindex kx rx) by (by rewrite ?Hcl).
  cbn [mbind result_bind].
  rewrite (getitem_at _ yindex ky ry) by (by rewrite ?Hcl).
  cbn [mbind result_bind].
  rewrite (getitem_at rx xindex kx _ ltac:(by rewrite Hlx) Hxx).
  cbn [mbind result_bind].
  rewrite (getitem_at rx yindex ky _ ltac:(by rewrite Hlx) Hxy).
  cbn [mbind result_bind].
  rewrite (getitem_at ry xindex kx _ ltac:(by rewrite Hly) Hyx).
  cbn [mbind result_bind].
  rewrite (getitem_at ry yindex ky _ ltac:(by rewrite Hly) Hyy).
  cbn [mbind result_bind].
  rewrite !entry_scale.
  by rewrite (nth_lookup_Some _ _ _ _ Hex), (nth_lookup_Some _ _ _ _ Hey).
Qed.

(** X15. With [n] estimators and an [n] by [n] inverse curvature, the
    method applied to two indices in range, counted from the front or,
    when negative, from the end, is the module-level function applied to
    the two estimators and to the two by two block of the covariance for
    these two parameters. *)
Theorem get_confidence_ellipse_method_selects_pair
    (self : LikelihoodFit.t np.ndarray) (r : OptimizeResult.t np.ndarray)
    (n : nat) (xindex yindex : Z) (kx ky : nat) (nsigma : R) (npoints : nat) :
  LikelihoodFit.get_minimize_result self = Ok r →
  length r.(OptimizeResult.x) = n →
  np.shape r.(OptimizeResult.hess_inv) = Some (n, n) →
  py_index n xindex = Some kx →
  py_index n yindex = Some ky →
  LikelihoodFit.get_confidence_ellipse self xindex yindex nsigma npoints =
  get_confidence_ellipse
    [nth kx r.(OptimizeResult.x) 0; nth ky r.(OptimizeResult.x) 0]
    [[2 * np.entry r.(OptimizeResult.hess_inv) kx kx;
      2 * np.entry r.(OptimizeResult.hess_inv) kx ky];
     [2 * np.entry r.(OptimizeResult.hess_inv) ky kx;
      2 * np.entry r.(OptimizeResult.hess_inv) ky ky]]
    nsigma npoints.
Proof. apply get_confidence_ellipse_method_value. Qed.

Lemma get_confidence_ellipse_method_selects_pair_witness :
  LikelihoodFit.get_confidence_ellipse fitted_session 0 (-1) 1 100 =
  get_confidence_ellipse
    [nth 0 [2; 1] 0; nth 1 [2; 1] 0]
    [[2 * np.entry [[1; -1]; [-1; 2]] 0 0;
      2 * np.entry [[1; -1]; [-1; 2]] 0 1];
     [2 * np.entry [[1; -1]; [-1; 2]] 1 0;
      2 * np.entry [[1; -1]; [-1; 2]] 1 1]]
    1 100.
Proof.
  apply (get_confidence_ellipse_method_selects_pair fitted_session
           (OptimizeResult.mk [2; 1] 0 true 0%Z [[1; -1]; [-1; 2]])
           2 0 (-1) 0 1 1 100); reflexivity.
Defined.

(** X16. With a fit result stored, an index outside [-n .. n-1] for the
    [n] estimators makes the method raise [IndexError]. *)
Theorem get_confidence_ellipse_method_index_out_of_range
    (self : LikelihoodFit.t np.ndarray) (r : OptimizeResult.t np.ndarray)
    (xindex yindex : Z) (nsigma : R) (npoints : nat) :
  LikelihoodFit.get_minimize_result self = Ok r →
  py_index (length r.(OptimizeResult.x)) xindex = None ∨
  py_index (length r.(OptimizeResult.x)) yindex = None →
  LikelihoodFit.get_confidence_ellipse self xindex yindex nsigma npoints =
  Raise IndexError.
Proof.
  intros Hr Hbad.
  unfold LikelihoodFit.get_confidence_ellipse, LikelihoodFit.get_estimators.
  rewrite Hr. cbn [mbind result_bind].
  destruct (py_index (length (OptimizeResult.x r)) xindex) as [kx|] eqn:Hkx.
  - destruct Hbad as [?|Hky]; [done|].
    destruct (getitem (OptimizeResult.x r) xindex) as [ex|e] eqn:Hex.
    + cbn [mbind result_bind].
      by rewrite (getitem_out_of_range _ yindex Hky).
    + unfold getitem in Hex. rewrite Hkx in Hex. cbn in Hex.
      destruct (OptimizeResult.x r !! kx); by simplify_eq.
  - by rewrite (getitem_out_of_range _ xindex Hkx).
Qed.

Lemma get_confidence_ellipse_method_index_out_of_range_witness :
  LikelihoodFit.get_confidence_ellipse fitted_session 0 2 1 100 =
  Raise IndexError.
Proof.
  apply (get_confidence_ellipse_method_index_out_of_range fitted_session
           (OptimizeResult.mk [2; 1] 0 true 0%Z [[1; -1]; [-1; 2]])
           0 2 1 100); [reflexivity|].
  right. reflexivity.
Defined.

(** ** The cost-surface scan: layout, indices and empty grids *)

Lemma cell_value_at (cost : np.ndarray → result scalar) (est : np.ndarray)
    (parx_index pary_index : Z) (kx ky : nat) (x y : R) :
  py_index (length est) parx_index = Some kx →
  py_index (length est) pary_index = Some ky →
  cell_value cost est parx_index pary_index x y =
  cost (<[ky:=y]> (<[kx:=x]> est)).
Proof.
  intros Hkx Hky. unfold cell_value, setitem. rewrite Hkx.
  cbn [mbind result_bind]. by rewrite length_insert, Hky.
Qed.

Lemma row_of_cells (cost : np.ndarray → result scalar) (est : np.ndarray)
    (parx_index pary_index : Z) (y : R) (h : R → scalar) (parx : list R)
    (vcost : list scalar) :
  (∀ x, x ∈ parx →
     cell_value cost est parx_index pary_index x y = Ok (h x)) →
  for_each parx (cell_append cost est parx_index pary_index y) vcost =
  Ok (vcost ++ map h parx).
Proof.
  revert vcost. induction parx as [|x parx IH]; intros vcost Hcell;
    cbn [for_each map].
  - by rewrite app_nil_r.
  - assert (Hx : cell_append cost est parx_index pary_index y vcost x =
                 Ok (vcost ++ [h x])).
    { unfold cell_append. rewrite Hcell by left. reflexivity. }
    rewrite Hx. cbn [mbind result_bind].
    rewrite IH by (intros x' Hx'; apply Hcell; by right).
    by rewrite <- app_assoc.
Qed.

(** X17. With a fit result stored, two indices in range and a cost
    function that returns on every candidate vector, the scan returns the
    grid whose row [r] and column [c] hold the cost at the estimator vector
    with component [parx_index] set to [parx[c]] and then component
    [pary_index] set to [pary[r]]: [len(pary)] rows of [len(parx)]
    entries. *)
Theorem vcost_function_grid_layout
    (self : LikelihoodFit.t loc) (r : OptimizeResult.t loc)
    (est : np.ndarray) (parx_index pary_index : Z) (kx ky : nat)
    (parx pary : list R) (f : R → R → scalar) (σ : store) :
  LikelihoodFit.get_minimize_result self = Ok r →
  σ !! r.(OptimizeResult.x) = Some est →
  py_index (length est) parx_index = Some kx →
  py_index (length est) pary_index = Some ky →
  (∀ x y, x ∈ parx → y ∈ pary →
     self.(LikelihoodFit.cost_function) (<[ky:=y]> (<[kx:=x]> est)) =
     Ok (f x y)) →
  (LikelihoodFit.vcost_function self parx_index pary_index parx pary σ).1 =
  Ok (map (fun y => map (fun x => f x y) parx) pary).
Proof.
  intros Hr Hest Hkx Hky Hcost.
  destruct (vcost_function_frame self r est parx_index pary_index Hr
              parx pary σ Hest) as [-> _].
  unfold vcost_values.
  assert (Hloop : ∀ ys vcost, (∀ y, y ∈ ys → y ∈ pary) →
    for_each ys (fun vcost y =>
      for_each parx (cell_append self.(LikelihoodFit.cost_function) est
                       parx_index pary_index y) vcost) vcost =
    Ok (vcost ++ concat (map (fun y => map (fun x => f x y) parx) ys))).
  { induction ys as [|y ys IH]; intros vcost Hin; cbn [for_each map concat].
    - by rewrite app_nil_r.
    - rewrite (row_of_cells _ _ _ _ _ (fun x => f x y)).
      + cbn [mbind result_bind].
        rewrite IH by (intros y' Hy'; apply Hin; by right).
        by rewrite <- app_assoc.
      + intros x Hx. rewrite (cell_value_at _ _ _ _ kx ky) by done.
        apply Hcost; [done|]. apply Hin. left. }
  rewrite Hloop by done. cbn [mbind result_bind app].
  rewrite <- (length_map (fun y => map (fun x => f x y) parx) pary).
  apply reshape_concat.
  apply Forall_forall. intros row Hrow.
  apply list_elem_of_In, in_map_iff in Hrow as (y & <- & _).
  apply length_map.
Qed.

Lemma vcost_function_grid_layout_witness :
  ∃ f : R → R → scalar,
    (LikelihoodFit.vcost_function scan_session 0 (-1) [7; 8; 9] [0; 1]
       scan_store).1 =
    Ok (map (fun y => map (fun x => f x y) [7; 8; 9]) [0; 1]).
Proof.
  eexists (fun x y =>
    Num (np.sum (np.power
      (zip_with Rdiv
         (zip_with Rminus [1; 3; 5] (line_model [0; 1; 2] [x; y]))
         [1; 1; 1]) 2))).
  apply (vcost_function_grid_layout scan_session
           (OptimizeResult.mk 0%nat 0 true 0%Z [[1; -1]; [-1; 2]])
           [2; 1] 0 (-1) 0 1 [7; 8; 9] [0; 1] _ scan_store); try reflexivity.
Defined.

(** X18. With a fit result stored and both grids non-empty, an index
    outside [-n .. n-1] for the [n] estimators makes the scan raise
    [IndexError], and the estimator array is left as it was. *)
Theorem vcost_function_index_out_of_range
    (self : LikelihoodFit.t loc) (r : OptimizeResult.t loc)
    (est : np.ndarray) (parx_index pary_index : Z) (x0 y0 : R)
    (parx pary : list R) (σ : store) :
  LikelihoodFit.get_minimize_result self = Ok r →
  σ !! r.(OptimizeResult.x) = Some est →
  py_index (length est) parx_index = None ∨
  py_index (length est) pary_index = None →
  (LikelihoodFit.vcost_function self parx_index pary_index
     (x0 :: parx) (y0 :: pary) σ).1 = Raise IndexError ∧
  estimators_in self
    (LikelihoodFit.vcost_function self parx_index pary_index
       (x0 :: parx) (y0 :: pary) σ).2 = Ok est.
Proof.
  intros Hr Hest Hbad.
  destruct (vcost_function_frame self r est parx_index pary_index Hr
              (x0 :: parx) (y0 :: pary) σ Hest) as [Hval Hsub].
  split.
  - rewrite Hval. unfold vcost_values. cbn [for_each].
    assert (Hcell : cell_append self.(LikelihoodFit.cost_function) est
                      parx_index pary_index y0 [] x0 = Raise IndexError).
    { unfold cell_append, cell_value, setitem.
      destruct (py_index (length est) parx_index) as [kx|] eqn:Hkx;
        [|reflexivity].
      destruct Hbad as [?|Hky]; [done|].
      cbn [mbind result_bind]. by rewrite length_insert, Hky. }
    by rewrite Hcell.
  - unfold estimators_in, LikelihoodFit.get_estimators. rewrite Hr.
    cbn [mbind result_bind]. unfold deref.
    by rewrite (lookup_weaken _ _ _ _ Hest Hsub).
Qed.

Lemma vcost_function_index_out_of_range_witness :
  (LikelihoodFit.vcost_function scan_session 0 2 [7; 8] [0; 1]
     scan_store).1 = Raise IndexError ∧
  estimators_in scan_session
    (LikelihoodFit.vcost_function scan_session 0 2 [7; 8] [0; 1]
       scan_store).2 = Ok [2; 1].
Proof.
  apply (vcost_function_index_out_of_range scan_session
           (OptimizeResult.mk 0%nat 0 true 0%Z [[1; -1]; [-1; 2]])
           [2; 1] 0 2 7 0 [8] [1] scan_store); try reflexivity.
  right. reflexivity.
Defined.

Lemma reshape_no_columns {A : Type} (rows : nat) :
  np.reshape (@nil A) rows 0 = Ok (replicate rows []).
Proof.
  unfold np.reshape. rewrite decide_True by (cbn; lia). f_equal.
  transitivity (replicate (length (seq 0 rows)) (@nil A));
    [|by rewrite length_seq].
  generalize (seq 0 rows) as l.
  induction l as [|i l IH]; [reflexivity|]. cbn [map length replicate].
  by rewrite IH, take_0.
Qed.

(** X19. With an empty grid no cell is evaluated: the scan neither
    reads the fit result nor checks the indices nor touches the store.
    It returns the empty grid when [pary] is empty, and [len(pary)] empty
    rows when [parx] is empty, also before any fit and for indices out of
    range. *)
Theorem vcost_function_with_empty_grid
    (self : LikelihoodFit.t loc) (parx_index pary_index : Z)
    (parx pary : list R) (σ : store) :
  LikelihoodFit.vcost_function self parx_index pary_index parx [] σ =
    (Ok [], σ) ∧
  LikelihoodFit.vcost_function self parx_index pary_index [] pary σ =
    (Ok (replicate (length pary) []), σ).
Proof.
  split; [reflexivity|].
  unfold LikelihoodFit.vcost_function.
  assert (Hloop : ∀ vcost,
    for_each (M := M) pary (fun vcost y =>
      for_each [] (LikelihoodFit.vcost_cell self parx_index pary_index y)
        vcost) vcost σ = (Ok vcost, σ)).
  { induction pary as [|y pary IH]; intros vcost; [reflexivity|].
    cbn [for_each]. unfold mbind at 1. unfold M_bind.
    cbn [mret M_ret]. apply IH. }
  unfold mbind, M_bind. rewrite Hloop. unfold lift.
  by rewrite reshape_no_columns.
Qed.

(** X20. Before any fit, a scan over two non-empty grids raises
    [AttributeError] at its first cell and leaves the store as it was. *)
Theorem vcost_function_before_fit
    (self : LikelihoodFit.t loc) (parx_index pary_index : Z) (x0 y0 : R)
    (parx pary : list R) (σ : store) :
  self.(LikelihoodFit.fit_result) = None →
  LikelihoodFit.vcost_function self parx_index pary_index
    (x0 :: parx) (y0 :: pary) σ = (Raise AttributeError, σ).
Proof.
  intros Hnone. unfold LikelihoodFit.vcost_function. cbn [for_each].
  assert (Hcell :
    LikelihoodFit.vcost_cell self parx_index pary_index y0 [] x0 σ =
    (Raise AttributeError, σ)).
  { unfold LikelihoodFit.vcost_cell, LikelihoodFit.get_estimators,
      LikelihoodFit.get_minimize_result.
    rewrite Hnone. reflexivity. }
  unfold mbind, M_bind. by rewrite Hcell.
Qed.

Lemma vcost_function_before_fit_witness :
  LikelihoodFit.vcost_function
    (LikelihoodFit.mk [0; 1; 2] [1; 3; 5] line_model
       (LeastSquares.cost_function [0; 1; 2] [1; 3; 5] [1; 1; 1] line_model)
       None)
    0 1 [7; 8] [0; 1] scan_store = (Raise AttributeError, scan_store).
Proof.
  apply (vcost_function_before_fit
           (LikelihoodFit.mk [0; 1; 2] [1; 3; 5] line_model
              (LeastSquares.cost_function [0; 1; 2] [1; 3; 5] [1; 1; 1]
                 line_model) None)
           0 1 7 0 [8] [1] scan_store).
  reflexivity.
Defined.

(** ** The gradient and the error band *)

Lemma for_each_collect {A B : Type} (body : list B → A → result (list B))
    (h : A → B) (l : list A) (acc : list B) :
  (∀ acc' i, i ∈ l → body acc' i = Ok (acc' ++ [h i])) →
  for_each l body acc = Ok (acc ++ map h l).
Proof.
  revert acc. induction l as [|i l IH]; intros acc Hbody; cbn [for_each map].
  - by rewrite app_nil_r.
  - rewrite Hbody by left. cbn [mbind result_bind].
    rewrite IH by (intros acc' j Hj; apply Hbody; by right).
    by rewrite <- app_assoc.
Qed.

Lemma lookup_nth {A : Type} (a : list A) (i : nat) (d : A) :
  (i < length a)%nat → a !! i = Some (nth i a d).
Proof.
  intros Hi. destruct (lookup_lt_is_Some_2 a i Hi) as [v Hv].
  by rewrite Hv, (nth_lookup_Some _ _ _ _ Hv).
Qed.

Lemma zip_with_zeros (f : R → R → R) (est zeros : np.ndarray) :
  (∀ u, f u 0 = u) →
  length zeros = length est → Forall (fun z => z = 0) zeros →
  zip_with f est zeros = est.
Proof.
  intros Hf. revert zeros.
  induction est as [|u est IH]; intros [|z zeros] Hlen Hz; simplify_eq/=;
    [reflexivity|].
  apply Forall_cons in Hz as [-> Hz]. rewrite Hf. f_equal. by apply IH.
Qed.

Lemma zip_with_unit_step (f : R → R → R) (est : np.ndarray) (i : nat) (d : R)
    (zeros : np.ndarray) :
  (∀ u, f u 0 = u) →
  length zeros = length est → Forall (fun z => z = 0) zeros →
  (i < length est)%nat →
  zip_with f est (<[i:=d]> zeros) = <[i := f (nth i est 0) d]> est.
Proof.
  intros Hf. revert i zeros.
  induction est as [|u est IH]; intros i [|z zeros] Hlen Hz Hi;
    simplify_eq/=; try lia.
  apply Forall_cons in Hz as [-> Hz].
  destruct i as [|i]; cbn [insert list_insert zip_with nth].
  - f_equal. by apply zip_with_zeros.
  - rewrite Hf. f_equal. apply IH; [done|done|lia].
Qed.

(** The gradient, row by row. *)
Lemma get_gradient_rows (self : LikelihoodFit.t np.ndarray)
    (r : OptimizeResult.t np.ndarray) (n : nat) (xs : np.ndarray) :
  LikelihoodFit.get_minimize_result self = Ok r →
  length r.(OptimizeResult.x) = n →
  np.shape r.(OptimizeResult.hess_inv) = Some (n, n) →
  (∀ par, length (self.(LikelihoodFit.model) xs par) = length xs) →
  LikelihoodFit.get_gradient self xs =
  Ok (map (fun i =>
        let step := gradient_step r.(OptimizeResult.hess_inv) i in
        map (fun v => v / (2 * step))
          (zip_with Rminus
             (self.(LikelihoodFit.model) xs (shifted r.(OptimizeResult.x) i step))
             (self.(LikelihoodFit.model) xs
                (shifted r.(OptimizeResult.x) i (- step)))))
      (seq 0 n)).
Proof.
  intros Hr Hlen Hshape Hmodel.
  unfold LikelihoodFit.get_gradient, LikelihoodFit.get_errors,
    LikelihoodFit.get_estimators, LikelihoodFit.get_covariance_matrix.
  rewrite Hr. cbn [mbind result_bind].
  rewrite (diagonal_square _ n) by (by apply shape_scale).
  set (steps := map (fun e => e * 0.01)
                  (np.sqrt (map (fun i =>
                     np.entry (np.scale 2 (OptimizeResult.hess_inv r)) i i)
                     (seq 0 n)))).
  assert (Hsteps : length steps = n).
  { unfold steps, np.sqrt. by rewrite !length_map, length_seq. }
  assert (Hstep : ∀ i, (i < n)%nat →
            nth i steps 0 = gradient_step r.(OptimizeResult.hess_inv) i).
  { intros i Hi. unfold steps, np.sqrt, gradient_step. rewrite !map_map.
    rewrite (nth_map_any _ _ _ 0%nat) by (rewrite length_seq; lia).
    rewrite seq_nth by lia. cbn [Nat.add]. by rewrite entry_scale. }
  rewrite Hsteps.
  rewrite <- (app_nil_l (map _ (seq 0 n))).
  apply for_each_collect. intros acc i Hi.
  apply list_elem_of_In, in_seq in Hi. cbn [Nat.add] in Hi.
  rewrite (getitem_of_nat steps i (nth i steps 0))
    by (apply lookup_nth; lia).
  cbn [mbind result_bind].
  rewrite setitem_of_nat by (unfold np.zeros_like; rewrite length_map; lia).
  cbn [mbind result_bind]. unfold np.subtract, np.add.
  rewrite !broadcast_same_length
    by (rewrite length_insert; unfold np.zeros_like; rewrite length_map; lia).
  cbn [mbind result_bind].
  rewrite broadcast_same_length by (by rewrite !Hmodel).
  cbn [mbind result_bind].
  assert (Hz : Forall (fun z => z = 0) (np.zeros_like steps)).
  { unfold np.zeros_like. apply Forall_forall. intros z Hin.
    by apply list_elem_of_In, in_map_iff in Hin as (? & <- & _). }
  assert (Hzl : length (np.zeros_like steps) = length (OptimizeResult.x r)).
  { unfold np.zeros_like. rewrite length_map. lia. }
  rewrite (zip_with_unit_step Rplus) by (try done; try lia; intros; lra).
  rewrite (zip_with_unit_step Rminus) by (try done; try lia; intros; lra).
  rewrite Hstep by lia. unfold shifted. cbn zeta.
  replace (nth i (OptimizeResult.x r) 0 -
           gradient_step (OptimizeResult.hess_inv r) i)
    with (nth i (OptimizeResult.x r) 0 +
          - gradient_step (OptimizeResult.hess_inv r) i) by lra.
  reflexivity.
Qed.

(** X21. With [n] estimators, an [n] by [n] inverse curvature and a
    model that returns one value per x-point, [get_gradient] returns [n]
    rows of [len(xs)] entries; entry [k] of row [i] is the central
    difference of the model at [xs[k]] in parameter [i] alone, with the
    step [0.01 * error[i]]. *)
Theorem get_gradient_is_central_difference
    (self : LikelihoodFit.t np.ndarray) (r : OptimizeResult.t np.ndarray)
    (n : nat) (xs : np.ndarray) :
  LikelihoodFit.get_minimize_result self = Ok r →
  length r.(OptimizeResult.x) = n →
  np.shape r.(OptimizeResult.hess_inv) = Some (n, n) →
  (∀ par, length (self.(LikelihoodFit.model) xs par) = length xs) →
  ∃ gradient,
    LikelihoodFit.get_gradient self xs = Ok gradient ∧
    length gradient = n ∧
    ∀ i, (i < n)%nat →
      length (nth i gradient []) = length xs ∧
      ∀ k, (k < length xs)%nat →
        np.entry gradient i k =
        (nth k (self.(LikelihoodFit.model) xs
                  (shifted r.(OptimizeResult.x) i
                     (gradient_step r.(OptimizeResult.hess_inv) i))) 0 -
         nth k (self.(LikelihoodFit.model) xs
                  (shifted r.(OptimizeResult.x) i
                     (- gradient_step r.(OptimizeResult.hess_inv) i))) 0) /
        (2 * gradient_step r.(OptimizeResult.hess_inv) i).
Proof.
  intros Hr Hlen Hshape Hmodel.
  rewrite (get_gradient_rows self r n xs) by done.
  eexists. split; [reflexivity|].
  rewrite length_map, length_seq. split; [reflexivity|].
  intros i Hi. unfold np.entry.
  rewrite (nth_map_any _ _ _ 0%nat) by (rewrite length_seq; lia).
  rewrite seq_nth by lia. cbn [Nat.add]. cbn zeta.
  rewrite length_map, length_zip_with, !Hmodel, Nat.min_id.
  split; [reflexivity|]. intros k Hk.
  rewrite (nth_map_any _ _ _ 0) by (rewrite length_zip_with, !Hmodel; lia).
  by rewrite nth_zip_with_R by (rewrite ?Hmodel; lia).
Qed.

Lemma get_gradient_is_central_difference_witness :
  ∃ gradient,
    LikelihoodFit.get_gradient fitted_session [1; 3] = Ok gradient ∧
    length gradient = 2%nat ∧
    ∀ i, (i < 2)%nat →
      length (nth i gradient []) = 2%nat ∧
      ∀ k, (k < 2)%nat →
        np.entry gradient i k =
        (nth k (line_model [1; 3]
                  (shifted [2; 1] i
                     (gradient_step [[1; -1]; [-1; 2]] i))) 0 -
         nth k (line_model [1; 3]
                  (shifted [2; 1] i
                     (- gradient_step [[1; -1]; [-1; 2]] i))) 0) /
        (2 * gradient_step [[1; -1]; [-1; 2]] i).
Proof.
  apply (get_gradient_is_central_difference fitted_session
           (OptimizeResult.mk [2; 1] 0 true 0%Z [[1; -1]; [-1; 2]])
           2 [1; 3]); try reflexivity.
Defined.

(** X22. For the straight line [par[0]*x + par[1]] with two estimators
    and positive diagonal entries of the 2 by 2 inverse curvature, the
    gradient is exactly [(x, 1)] and [get_yfit_error] returns at every [x]
    the square root of
    [cov00*x^2 + (cov01 + cov10)*x + cov11], the covariance being twice
    the inverse curvature. *)
Theorem get_yfit_error_of_line_model
    (self : LikelihoodFit.t np.ndarray) (r : OptimizeResult.t np.ndarray)
    (p0 p1 h00 h01 h10 h11 : R) (xs : np.ndarray) :
  LikelihoodFit.get_minimize_result self = Ok r →
  r.(OptimizeResult.x) = [p0; p1] →
  r.(OptimizeResult.hess_inv) = [[h00; h01]; [h10; h11]] →
  self.(LikelihoodFit.model) = line_model →
  0 < h00 → 0 < h11 →
  LikelihoodFit.get_gradient self xs = Ok [xs; map (fun _ => 1) xs] ∧
  LikelihoodFit.get_yfit_error self xs =
  Ok (map (fun x => sqrt (2 * h00 * x ^ 2 + (2 * h01 + 2 * h10) * x + 2 * h11))
        xs).
Proof.
  intros Hr Hx Hh Hmodel H00 H11.
  assert (Hgrad :
    LikelihoodFit.get_gradient self xs = Ok [xs; map (fun _ => 1) xs]).
  { rewrite (get_gradient_rows self r 2 xs);
      [|done|by rewrite Hx|by rewrite Hh
       |intros par; rewrite Hmodel; apply length_map].
    rewrite Hx, Hh, Hmodel. cbn [seq map]. cbn zeta.
    unfold gradient_step, np.entry, shifted. cbn [nth insert list_insert].
    assert (Hs0 : sqrt (2 * h00) * 0.01 ≠ 0).
    { assert (0 < sqrt (2 * h00)) by (apply sqrt_lt_R0; lra). lra. }
    assert (Hs1 : sqrt (2 * h11) * 0.01 ≠ 0).
    { assert (0 < sqrt (2 * h11)) by (apply sqrt_lt_R0; lra). lra. }
    revert Hs0 Hs1.
    generalize (sqrt (2 * h00) * 0.01) as s0, (sqrt (2 * h11) * 0.01) as s1.
    intros s0 s1 Hs0 Hs1. unfold line_model. cbn [nth].
    do 2 f_equal; [|f_equal].
    - induction xs as [|v xs IH]; [reflexivity|].
      cbn [map zip_with]. rewrite IH. f_equal. field. done.
    - induction xs as [|v xs IH]; [reflexivity|].
      cbn [map zip_with]. rewrite IH. f_equal. field. done. }
  split; [exact Hgrad|].
  unfold LikelihoodFit.get_yfit_error, LikelihoodFit.get_covariance_matrix.
  rewrite Hgrad, Hr. cbn [mbind result_bind]. rewrite Hh.
  rewrite (einsum_same_shape _ _ 2 (length xs)).
  2: { unfold np.shape. cbn [forallb length]. rewrite length_map.
       by rewrite bool_decide_eq_true_2. }
  2: reflexivity.
  cbn [mbind result_bind]. f_equal. unfold np.sqrt. rewrite map_map.
  rewrite <- (map_nth_seq
    (fun x => sqrt (2 * h00 * x ^ 2 + (2 * h01 + 2 * h10) * x + 2 * h11)) xs).
  apply map_ext_in. intros k Hk. apply in_seq in Hk. f_equal.
  cbn [big_sum]. unfold np.entry, np.scale. cbn [nth map].
  rewrite (nth_map_any (fun _ => 1) xs k 0 0) by lia. ring.
Qed.

Lemma get_yfit_error_of_line_model_witness :
  LikelihoodFit.get_gradient fitted_session [1; 3] =
    Ok [[1; 3]; map (fun _ => 1) [1; 3]] ∧
  LikelihoodFit.get_yfit_error fitted_session [1; 3] =
  Ok (map (fun x => sqrt (2 * 1 * x ^ 2 + (2 * -1 + 2 * -1) * x + 2 * 2))
        [1; 3]).
Proof.
  apply (get_yfit_error_of_line_model fitted_session
           (OptimizeResult.mk [2; 1] 0 true 0%Z [[1; -1]; [-1; 2]])
           2 1 1 (-1) (-1) 2 [1; 3]); try reflexivity; lra.
Defined.

(** ** The Poisson example script *)





(** ** The error band as a whole *)



